(** * AI-english-educator: the socket server's quota, streak and relay logic

    A shallow embedding of [src/server/index.js].  The four socket handlers
    ([getUserData], [startConversation], [sendMessage], [disconnect]) are
    pure functions from the process state and the answers of the outside
    world (profile store, language-model provider, clock) to the new state
    and the ordered trace of what the handler did: store calls, provider
    calls and events emitted on the socket.

    One handler invocation is modelled as running from start to end; the
    interleaving of handlers of different sockets at [await] points is not
    part of this model. *)

From Stdlib Require Import Ascii.
From stdpp Require Import gmap strings list fin_maps.

Local Open Scope Z_scope.

(** ** Data *)

(** [getToday()]: the [YYYY-MM-DD] prefix of an ISO timestamp. *)
Definition DayId := string.

(** A row of the [profiles] table.  Date columns are nullable. *)
Record Profile := mkProfile {
  id : string;
  streak : Z;
  last_login_date : option DayId;
  last_conversation_date : option DayId;
  daily_conversations : Z;
  is_premium : bool
}.

(** The projection [.select('daily_conversations, is_premium')]: the two
    columns the conversation handlers read. *)
Record QuotaRow := mkQuotaRow {
  q_daily_conversations : Z;
  q_is_premium : bool
}.

Definition quotaColumns (p : Profile) : QuotaRow :=
  {| q_daily_conversations := daily_conversations p;
     q_is_premium := is_premium p |}.

(** The object literal handed to [.update(...)]: a field is [Some v] when the
    key is present. *)
Record Updates := mkUpdates {
  u_streak : option Z;
  u_last_login_date : option DayId;
  u_daily_conversations : option Z;
  u_last_conversation_date : option DayId
}.

Definition noUpdates : Updates :=
  {| u_streak := None; u_last_login_date := None;
     u_daily_conversations := None; u_last_conversation_date := None |}.

Definition set_streak (v : Z) (u : Updates) : Updates :=
  {| u_streak := Some v; u_last_login_date := u_last_login_date u;
     u_daily_conversations := u_daily_conversations u;
     u_last_conversation_date := u_last_conversation_date u |}.

Definition set_last_login_date (d : DayId) (u : Updates) : Updates :=
  {| u_streak := u_streak u; u_last_login_date := Some d;
     u_daily_conversations := u_daily_conversations u;
     u_last_conversation_date := u_last_conversation_date u |}.

Definition set_daily_conversations (v : Z) (u : Updates) : Updates :=
  {| u_streak := u_streak u; u_last_login_date := u_last_login_date u;
     u_daily_conversations := Some v;
     u_last_conversation_date := u_last_conversation_date u |}.

Definition set_last_conversation_date (d : DayId) (u : Updates) : Updates :=
  {| u_streak := u_streak u; u_last_login_date := u_last_login_date u;
     u_daily_conversations := u_daily_conversations u;
     u_last_conversation_date := Some d |}.

(** What the store does with an accepted update: the present keys overwrite
    the columns, the others stay. *)
Definition applyUpdates (u : Updates) (p : Profile) : Profile :=
  {| id := id p;
     streak := default (streak p) (u_streak u);
     last_login_date :=
       match u_last_login_date u with
       | Some d => Some d
       | None => last_login_date p
       end;
     last_conversation_date :=
       match u_last_conversation_date u with
       | Some d => Some d
       | None => last_conversation_date p
       end;
     daily_conversations :=
       default (daily_conversations p) (u_daily_conversations u);
     is_premium := is_premium p |}.

(** The provider's chat object of [model.startChat]; the system prompt is a
    fixed template around the scenario, so the scenario identifies it. *)
Record Chat := mkChat { chat_scenario : string }.

(** An entry of the [chatSessions] map. *)
Record Session := mkSession {
  chat : Chat;
  userMessageCount : Z;
  userId : string
}.

(** Process state: the [profiles] table behind [supabase] and the
    module-level [chatSessions] map keyed by [socket.id]. *)
Record World := mkWorld {
  profiles : gmap string Profile;
  chatSessions : gmap string Session
}.

(** Events sent to the client with [socket.emit]. *)
Inductive Event :=
| userDataError (message : string)
| userData (p : Profile)
| error (message : string)
| limitReached
| aiMessage (text : string)
| aiMessageChunk (text : string)
| aiMessageEnd
| conversationCompleted (daily : Z).

(** What a handler does, in program order. *)
Inductive Action :=
| DbSelect (uid : string)
| DbUpdate (uid : string) (u : Updates)
| StartChat (scenario : string)
| SendOpening
| SendStream (message : string)
| Emit (e : Event).

Definition Trace := list Action.

Definition emitted (tr : Trace) : list Event :=
  omap (fun a => match a with Emit e => Some e | _ => None end) tr.

Definition dbWrites (tr : Trace) : list (string * Updates) :=
  omap (fun a => match a with DbUpdate i u => Some (i, u) | _ => None end) tr.

(** ** The outside world *)

(** The [{ data, error }] pair a store call resolves to. *)
Record Response (A : Type) := mkResponse {
  data : option A;
  resp_error : bool
}.
Arguments mkResponse {A} _ _.
Arguments data {A} _.
Arguments resp_error {A} _.

(** [.select(...).eq('id', uid).single()]: [reachable] says whether the call
    gets through to the store; a missing row is an error of [.single()]. *)
Definition selectSingle (reachable : bool) (db : gmap string Profile)
    (uid : string) : Response Profile :=
  if reachable then
    match db !! uid with
    | Some p => mkResponse (Some p) false
    | None => mkResponse None true
    end
  else mkResponse None true.

(** [.update(u).eq('id', uid)]: the new table and the row as
    [.select().single()] returns it. *)
Definition updateSingle (accepted : bool) (db : gmap string Profile)
    (uid : string) (u : Updates) : gmap string Profile * Response Profile :=
  if accepted then
    match db !! uid with
    | Some p =>
        let p' := applyUpdates u p in
        (<[uid := p']> db, mkResponse (Some p') false)
    | None => (db, mkResponse None true)
    end
  else (db, mkResponse None true).

(** One fragment of a streamed reply; [chunk.text()] either gives the text
    or throws. *)
Inductive Chunk :=
| Text (s : string)
| TextThrows.

(** A streamed reply: the fragments the iterator yields, and whether the
    iterator throws after them instead of finishing. *)
Record Stream := mkStream {
  chunks : list Chunk;
  throwsAtEnd : bool
}.

(** The answers [getUserData] gets from the store. *)
Record FetchEnv := mkFetchEnv {
  f_select_ok : bool;
  f_update_ok : bool
}.

(** The answers [startConversation] gets: the store, the construction of the
    chat object, and the opening exchange ([None]: it throws). *)
Record StartEnv := mkStartEnv {
  s_select_ok : bool;
  s_chat_created : bool;
  s_opening : option string
}.

(** The answers [sendMessage] gets: the store, and the streamed reply
    ([None]: [chat.sendMessageStream] rejects). *)
Record MessageEnv := mkMessageEnv {
  m_select_ok : bool;
  m_update_ok : bool;
  m_stream : option Stream
}.

(** The payload's [userId] when it passes the [!userId] test: an absent
    field and the empty string are both falsy. *)
Definition truthyUserId (uid : option string) : option string :=
  match uid with
  | None => None
  | Some s => if bool_decide (s = EmptyString) then None else Some s
  end.

(** ** getUserData (lines 38-109) *)

(** Lines 63-86: the [updates] object and the [needsUpdate] flag. *)
Definition computeUpdates (today yesterdayStr : DayId) (user : Profile)
    : Updates * bool :=
  let updates := noUpdates in
  let needsUpdate := false in
  (* Streak logic *)
  let '(updates, needsUpdate) :=
    if bool_decide (last_login_date user = Some yesterdayStr) then
      (set_streak (streak user + 1) updates, true)
    else if negb (bool_decide (last_login_date user = Some today)) then
      (set_streak 1 updates, true)
    else (updates, needsUpdate) in
  (* Always update last_login_date if not today *)
  let '(updates, needsUpdate) :=
    if negb (bool_decide (last_login_date user = Some today)) then
      (set_last_login_date today updates, true)
    else (updates, needsUpdate) in
  (* Daily conversation reset logic *)
  let '(updates, needsUpdate) :=
    if negb (bool_decide (last_conversation_date user = Some today)) then
      (set_last_conversation_date today (set_daily_conversations 0 updates),
       true)
    else (updates, needsUpdate) in
  (updates, needsUpdate).

Definition getUserData (today yesterdayStr : DayId) (env : FetchEnv)
    (payloadUserId : option string) (w : World) : World * Trace :=
  match truthyUserId payloadUserId with
  | None => (w, [Emit (userDataError "Missing userId")])
  | Some uid =>
    let r := selectSingle (f_select_ok env) (profiles w) uid in
    match resp_error r, data r with
    | false, Some user =>
        let '(updates, needsUpdate) :=
          computeUpdates today yesterdayStr user in
        if needsUpdate then
          let '(db', r') :=
            updateSingle (f_update_ok env) (profiles w) uid updates in
          match resp_error r', data r' with
          | false, Some updatedUser =>
              (mkWorld db' (chatSessions w),
               [DbSelect uid; DbUpdate uid updates;
                Emit (userData updatedUser)])
          | _, _ =>
              (* Send old data to prevent hanging *)
              (mkWorld db' (chatSessions w),
               [DbSelect uid; DbUpdate uid updates; Emit (userData user)])
          end
        else (w, [DbSelect uid; Emit (userData user)])
    | _, _ =>
        (w, [DbSelect uid;
             Emit (userDataError "Could not find user profile.")])
    end
  end.

(** ** startConversation (lines 112-170) *)

(** Line 129: [user.daily_conversations >= 3 && !user.is_premium]. *)
Definition overDailyLimit (user : QuotaRow) : bool :=
  (3 <=? q_daily_conversations user) && negb (q_is_premium user).

(** The quota check as a positive test: the handler goes on exactly when
    the guard of line 129 is false. *)
Definition checkQuota (user : QuotaRow) : bool := negb (overDailyLimit user).

Definition startConversation (socketId : string) (env : StartEnv)
    (scenario : string) (payloadUserId : option string) (w : World)
    : World * Trace :=
  match truthyUserId payloadUserId with
  | None => (w, [Emit (error "Missing userId.")])
  | Some uid =>
    let r := selectSingle (s_select_ok env) (profiles w) uid in
    match resp_error r, quotaColumns <$> data r with
    | false, Some user =>
        if overDailyLimit user then (w, [DbSelect uid; Emit limitReached])
        else if s_chat_created env then
          let c := mkChat scenario in
          let w' :=
            mkWorld (profiles w)
              (<[socketId := mkSession c 0 uid]> (chatSessions w)) in
          match s_opening env with
          | Some text =>
              (w', [DbSelect uid; StartChat scenario; SendOpening;
                    Emit (aiMessage text)])
          | None =>
              (w', [DbSelect uid; StartChat scenario; SendOpening;
                    Emit (error "Failed to start conversation.")])
          end
        else
          (w, [DbSelect uid; Emit (error "Failed to start conversation.")])
    | _, _ => (w, [DbSelect uid; Emit (error "User not found.")])
    end
  end.

(** ** sendMessage (lines 173-216) *)

(** Lines 208-210: forward the fragments one by one; the flag says whether
    the loop ran to the end of the list without [chunk.text()] throwing. *)
Fixpoint forwardChunks (cs : list Chunk) : list Event * bool :=
  match cs with
  | [] => ([], true)
  | Text s :: rest =>
      let '(evs, finished) := forwardChunks rest in
      (aiMessageChunk s :: evs, finished)
  | TextThrows :: _ => ([], false)
  end.

(** Lines 206-215: the [try] block around the streamed reply. *)
Definition streamReply (o : option Stream) : list Event :=
  match o with
  | None => [error "Failed to get AI response."]
  | Some st =>
      let '(evs, finished) := forwardChunks (chunks st) in
      if finished && negb (throwsAtEnd st) then evs ++ [aiMessageEnd]
      else evs ++ [error "Failed to get AI response."]
  end.

(** Lines 184-204: the completion check of the fifth message. *)
Definition completionCheck (today : DayId) (env : MessageEnv)
    (userMessageCount : Z) (uid : string) (db : gmap string Profile)
    : gmap string Profile * Trace :=
  if bool_decide (userMessageCount = 5) then
    let r := selectSingle (m_select_ok env) db uid in
    match quotaColumns <$> data r with
    | Some user =>
        if negb (q_is_premium user) then
          let newCount := q_daily_conversations user + 1 in
          let u :=
            set_last_conversation_date today
              (set_daily_conversations newCount noUpdates) in
          let '(db', _) := updateSingle (m_update_ok env) db uid u in
          (db', [DbSelect uid; DbUpdate uid u;
                 Emit (conversationCompleted newCount)])
        else (db, [DbSelect uid])
    | None => (db, [DbSelect uid])
    end
  else (db, []).

Definition sendMessage (socketId : string) (today : DayId)
    (env : MessageEnv) (message : string) (w : World) : World * Trace :=
  match chatSessions w !! socketId with
  | None => (w, [Emit (error "Chat session not found.")])
  | Some session =>
      let session' :=
        mkSession (chat session) (userMessageCount session + 1)
          (userId session) in
      let sessions' := <[socketId := session']> (chatSessions w) in
      let '(db', tr) :=
        completionCheck today env (userMessageCount session')
          (userId session') (profiles w) in
      (mkWorld db' sessions',
       tr ++ SendStream message :: (Emit <$> streamReply (m_stream env)))
  end.

(** ** disconnect (lines 218-221) *)

Definition disconnect (socketId : string) (w : World) : World * Trace :=
  (mkWorld (profiles w) (delete socketId (chatSessions w)), []).

(** ** Observations on traces and runs, used in the statements *)

(** The texts of the fragments up to the first one whose [text()] throws. *)
Fixpoint readableTexts (cs : list Chunk) : list string :=
  match cs with
  | Text s :: rest => s :: readableTexts rest
  | _ => []
  end.

Definition isText (c : Chunk) : bool :=
  match c with Text _ => true | TextThrows => false end.

(** What reaches the client of a streamed reply, and whether the stream ran
    to its end without a failure. *)
Definition delivered (o : option Stream) : list string :=
  match o with
  | Some st => readableTexts (chunks st)
  | None => []
  end.

Definition streamCompletes (o : option Stream) : bool :=
  match o with
  | Some st => forallb isText (chunks st) && negb (throwsAtEnd st)
  | None => false
  end.

Definition completionEvents (tr : Trace) : list Z :=
  omap (fun a =>
          match a with
          | Emit (conversationCompleted n) => Some n
          | _ => None
          end) tr.

(** The session after one more message: [session.userMessageCount += 1]. *)
Definition bump (s : Session) : Session :=
  mkSession (chat s) (userMessageCount s + 1) (userId s).

(** [sendMessage] run on the messages a socket sends one after the other,
    each with the answers the outside world gives on that turn; the result
    keeps one trace per turn. *)
Fixpoint sendMessages (socketId : string) (today : DayId)
    (turns : list (MessageEnv * string)) (w : World) : World * list Trace :=
  match turns with
  | [] => (w, [])
  | (env, message) :: rest =>
      let '(w1, tr) := sendMessage socketId today env message w in
      let '(w2, trs) := sendMessages socketId today rest w1 in
      (w2, tr :: trs)
  end.

(** Closes [a ∉ tr] for a literal trace [tr] none of whose entries has the
    constructor of [a]. *)
Ltac absent_from_trace :=
  let H := fresh "Hin" in
  intros H;
  repeat (apply elem_of_cons in H as [H | H]; [discriminate H |]);
  by apply elem_of_nil in H.

(** ** getToday (line 32) *)

(** [iso.split('T')[0]]: the part of the string before the first ['T'], the
    whole string when there is none. *)
Fixpoint beforeFirstT (iso : string) : string :=
  match iso with
  | EmptyString => EmptyString
  | String c rest =>
      if Ascii.eqb c "T"%char then EmptyString
      else String c (beforeFirstT rest)
  end.

(** [getToday], with the result of [new Date().toISOString()] as input. *)
Definition getToday (iso : string) : DayId := beforeFirstT iso.

Fixpoint hasT (s : string) : bool :=
  match s with
  | EmptyString => false
  | String c rest => Ascii.eqb c "T"%char || hasT rest
  end.

(** ** The connection handler (lines 34-222) *)

(** The events a socket can send with their payload ([getUserData] and
    [startConversation] with a payload object, [sendMessage] with a string),
    each with the answers the outside world gives while it is handled. *)
Inductive Request :=
| OnGetUserData (env : FetchEnv) (payloadUserId : option string)
| OnStartConversation (env : StartEnv) (scenario : string)
    (payloadUserId : option string)
| OnSendMessage (env : MessageEnv) (message : string)
| OnDisconnect.

(** An event arriving on a socket, with the clock readings of that moment. *)
Record Arrival := mkArrival {
  a_socket : string;
  a_today : DayId;
  a_yesterday : DayId;
  a_request : Request
}.

(** The dispatch of [socket.on(...)]. *)
Definition handle (a : Arrival) (w : World) : World * Trace :=
  match a_request a with
  | OnGetUserData env payloadUserId =>
      getUserData (a_today a) (a_yesterday a) env payloadUserId w
  | OnStartConversation env scenario payloadUserId =>
      startConversation (a_socket a) env scenario payloadUserId w
  | OnSendMessage env message =>
      sendMessage (a_socket a) (a_today a) env message w
  | OnDisconnect => disconnect (a_socket a) w
  end.

(** The events handled one after the other; one trace per event. *)
Fixpoint handleAll (arrivals : list Arrival) (w : World)
    : World * list Trace :=
  match arrivals with
  | [] => (w, [])
  | a :: rest =>
      let '(w1, tr) := handle a w in
      let '(w2, trs) := handleAll rest w1 in
      (w2, tr :: trs)
  end.

(** The handlers as they are called with the first argument of the event,
    [None] when the client sent none.  Their parameter lists destructure the
    payload ([({ userId })], [({ scenario, userId })]), so without a payload
    object the call throws before the body runs: [None], with nothing
    emitted by the handler. *)
Definition onGetUserData (today yesterdayStr : DayId) (env : FetchEnv)
    (payload : option (option string)) (w : World) : option (World * Trace) :=
  match payload with
  | None => None
  | Some payloadUserId =>
      Some (getUserData today yesterdayStr env payloadUserId w)
  end.

Definition onStartConversation (socketId : string) (env : StartEnv)
    (payload : option (string * option string)) (w : World)
    : option (World * Trace) :=
  match payload with
  | None => None
  | Some (scenario, payloadUserId) =>
      Some (startConversation socketId env scenario payloadUserId w)
  end.

(** The columns no handler writes. *)
Definition identityColumns (p : Profile) : string * bool :=
  (id p, is_premium p).

(** Every registered session has a non-negative message count and a
    non-empty user id that has a row in [profiles]. *)
Definition sessionsBillProfiles (w : World) : Prop :=
  ∀ (sid : string) (s : Session),
    chatSessions w !! sid = Some s →
    0 ≤ userMessageCount s
    ∧ userId s ≠ EmptyString
    ∧ is_Some (profiles w !! userId s).

(** The update of the completion check (lines 195-198). *)
Definition completionUpdate (today : DayId) (newCount : Z) : Updates :=
  set_last_conversation_date today
    (set_daily_conversations newCount noUpdates).

(** ** Basic facts about the store and the payload check *)

Lemma truthyUserId_present (uid : string) :
  uid ≠ EmptyString → truthyUserId (Some uid) = Some uid.
Proof. intros Hne. unfold truthyUserId. by rewrite bool_decide_eq_false_2. Qed.

Lemma selectSingle_found (db : gmap string Profile) uid p :
  db !! uid = Some p → selectSingle true db uid = mkResponse (Some p) false.
Proof. intros Hp. unfold selectSingle. by rewrite Hp. Qed.

Lemma selectSingle_unreachable (db : gmap string Profile) uid :
  selectSingle false db uid = mkResponse None true.
Proof. reflexivity. Qed.

Lemma updateSingle_accepted (db : gmap string Profile) uid u p :
  db !! uid = Some p →
  updateSingle true db uid u =
    (<[uid := applyUpdates u p]> db, mkResponse (Some (applyUpdates u p)) false).
Proof. intros Hp. unfold updateSingle. by rewrite Hp. Qed.

Lemma updateSingle_rejected (db : gmap string Profile) uid u :
  updateSingle false db uid u = (db, mkResponse None true).
Proof. reflexivity. Qed.

Lemma world_eta (w : World) : mkWorld (profiles w) (chatSessions w) = w.
Proof. by destruct w. Qed.

(** ** The decision of [computeUpdates], case by case *)

Section ComputeUpdates.
Variables (today yesterdayStr : DayId) (user : Profile).

Lemma computeUpdates_streak_yesterday :
  last_login_date user = Some yesterdayStr →
  u_streak (computeUpdates today yesterdayStr user).1
    = Some (streak user + 1).
Proof.
  intros Hy. unfold computeUpdates.
  rewrite (bool_decide_eq_true_2 _ Hy).
  repeat case_bool_decide; reflexivity.
Qed.

Lemma computeUpdates_streak_gap :
  last_login_date user ≠ Some yesterdayStr →
  last_login_date user ≠ Some today →
  u_streak (computeUpdates today yesterdayStr user).1 = Some 1.
Proof.
  intros Hy Ht. unfold computeUpdates.
  rewrite (bool_decide_eq_false_2 _ Hy), (bool_decide_eq_false_2 _ Ht).
  simpl. case_bool_decide; reflexivity.
Qed.

Lemma computeUpdates_needed_yesterday :
  last_login_date user = Some yesterdayStr →
  (computeUpdates today yesterdayStr user).2 = true.
Proof.
  intros Hy. unfold computeUpdates.
  rewrite (bool_decide_eq_true_2 _ Hy).
  repeat case_bool_decide; reflexivity.
Qed.

Lemma computeUpdates_needed_not_today :
  last_login_date user ≠ Some today →
  (computeUpdates today yesterdayStr user).2 = true.
Proof.
  intros Ht. unfold computeUpdates.
  rewrite (bool_decide_eq_false_2 _ Ht).
  repeat case_bool_decide; reflexivity.
Qed.

Lemma computeUpdates_stale_counter :
  last_conversation_date user ≠ Some today →
  (computeUpdates today yesterdayStr user).2 = true
  ∧ u_daily_conversations (computeUpdates today yesterdayStr user).1
      = Some 0
  ∧ u_last_conversation_date (computeUpdates today yesterdayStr user).1
      = Some today.
Proof.
  intros Hc. unfold computeUpdates.
  rewrite (bool_decide_eq_false_2 _ Hc).
  repeat case_bool_decide; done.
Qed.

Lemma computeUpdates_current :
  yesterdayStr ≠ today →
  last_login_date user = Some today →
  last_conversation_date user = Some today →
  computeUpdates today yesterdayStr user = (noUpdates, false).
Proof.
  intros Hne Hl Hc. unfold computeUpdates.
  rewrite (bool_decide_eq_true_2 _ Hl), (bool_decide_eq_true_2 _ Hc).
  rewrite bool_decide_eq_false_2; [reflexivity |].
  rewrite Hl. congruence.
Qed.
End ComputeUpdates.

(** ** getUserData, path by path *)

Section GetUserData.
Variables (today yesterdayStr : DayId) (env : FetchEnv).
Variables (uid : string) (user : Profile) (w : World).
Hypothesis uid_present : uid ≠ EmptyString.
Hypothesis select_ok : f_select_ok env = true.
Hypothesis stored : profiles w !! uid = Some user.

Lemma getUserData_no_update :
  (computeUpdates today yesterdayStr user).2 = false →
  getUserData today yesterdayStr env (Some uid) w
    = (w, [DbSelect uid; Emit (userData user)]).
Proof using uid_present select_ok stored.
  intros Hn. unfold getUserData.
  rewrite (truthyUserId_present _ uid_present), select_ok.
  rewrite (selectSingle_found _ _ _ stored). cbn [resp_error data].
  destruct (computeUpdates today yesterdayStr user) as [u n].
  simpl in Hn. by rewrite Hn.
Qed.

Lemma getUserData_update_accepted :
  (computeUpdates today yesterdayStr user).2 = true →
  f_update_ok env = true →
  getUserData today yesterdayStr env (Some uid) w
    = (let u := (computeUpdates today yesterdayStr user).1 in
       (mkWorld (<[uid := applyUpdates u user]> (profiles w))
          (chatSessions w),
        [DbSelect uid; DbUpdate uid u;
         Emit (userData (applyUpdates u user))])).
Proof using uid_present select_ok stored.
  intros Hn Hu. unfold getUserData.
  rewrite (truthyUserId_present _ uid_present), select_ok, Hu.
  rewrite (selectSingle_found _ _ _ stored). cbn [resp_error data].
  destruct (computeUpdates today yesterdayStr user) as [u n].
  simpl in Hn. rewrite Hn.
  by rewrite (updateSingle_accepted _ _ _ _ stored).
Qed.

Lemma getUserData_update_rejected :
  (computeUpdates today yesterdayStr user).2 = true →
  f_update_ok env = false →
  getUserData today yesterdayStr env (Some uid) w
    = (w, [DbSelect uid;
           DbUpdate uid (computeUpdates today yesterdayStr user).1;
           Emit (userData user)]).
Proof using uid_present select_ok stored.
  intros Hn Hu. unfold getUserData.
  rewrite (truthyUserId_present _ uid_present), select_ok, Hu.
  rewrite (selectSingle_found _ _ _ stored). cbn [resp_error data].
  destruct (computeUpdates today yesterdayStr user) as [u n].
  simpl in Hn. rewrite Hn, updateSingle_rejected. simpl.
  by rewrite world_eta.
Qed.
End GetUserData.

(** ** startConversation, path by path *)

Lemma overDailyLimit_spec (user : QuotaRow) :
  overDailyLimit user = true
  ↔ q_is_premium user = false ∧ 3 ≤ q_daily_conversations user.
Proof.
  unfold overDailyLimit.
  rewrite andb_true_iff, negb_true_iff, Z.leb_le. tauto.
Qed.

Section StartConversation.
Variables (socketId : string) (env : StartEnv) (scenario : string).
Variables (uid : string) (user : Profile) (w : World).
Hypothesis uid_present : uid ≠ EmptyString.
Hypothesis select_ok : s_select_ok env = true.
Hypothesis stored : profiles w !! uid = Some user.

Lemma startConversation_denied :
  overDailyLimit (quotaColumns user) = true →
  startConversation socketId env scenario (Some uid) w
    = (w, [DbSelect uid; Emit limitReached]).
Proof using uid_present select_ok stored.
  intros Hq. unfold startConversation.
  rewrite (truthyUserId_present _ uid_present), select_ok.
  rewrite (selectSingle_found _ _ _ stored). cbn [resp_error data fmap].
  simpl. by rewrite Hq.
Qed.

Lemma startConversation_allowed :
  overDailyLimit (quotaColumns user) = false →
  startConversation socketId env scenario (Some uid) w
    = (if s_chat_created env then
         (mkWorld (profiles w)
            (<[socketId := mkSession (mkChat scenario) 0 uid]>
               (chatSessions w)),
          [DbSelect uid; StartChat scenario; SendOpening;
           Emit (match s_opening env with
                 | Some text => aiMessage text
                 | None => error "Failed to start conversation."
                 end)])
       else
         (w, [DbSelect uid; Emit (error "Failed to start conversation.")])).
Proof using uid_present select_ok stored.
  intros Hq. unfold startConversation.
  rewrite (truthyUserId_present _ uid_present), select_ok.
  rewrite (selectSingle_found _ _ _ stored). simpl. rewrite Hq.
  destruct (s_chat_created env); [| reflexivity].
  by destruct (s_opening env).
Qed.

Lemma startConversation_allowed_no_limitReached :
  overDailyLimit (quotaColumns user) = false →
  Emit limitReached ∉ (startConversation socketId env scenario (Some uid) w).2.
Proof using uid_present select_ok stored.
  intros Hq. rewrite (startConversation_allowed Hq).
  destruct (s_chat_created env), (s_opening env); cbn [snd];
    absent_from_trace.
Qed.
End StartConversation.

(** ** Claims about the quota gate and the login reconciliation *)

(** C5.  The quota check lets a conversation start exactly when the profile
    is premium or has fewer than three daily conversations: it is true for
    every premium profile whatever the counter, and false exactly for a
    non-premium profile with a counter of three or more, in which case
    [startConversation] emits [limitReached] and nothing else: no chat is
    created, no session registered, no opening message sent. *)
Theorem startConversation_quota_gate
    (socketId scenario uid : string) (env : StartEnv) (p : Profile)
    (w : World) :
  uid ≠ EmptyString →
  s_select_ok env = true →
  profiles w !! uid = Some p →
  (checkQuota (quotaColumns p) = true
     ↔ is_premium p = true ∨ daily_conversations p < 3)
  ∧ (is_premium p = true → checkQuota (quotaColumns p) = true)
  ∧ (checkQuota (quotaColumns p) = false
       ↔ is_premium p = false ∧ 3 ≤ daily_conversations p)
  ∧ (checkQuota (quotaColumns p) = false →
       startConversation socketId env scenario (Some uid) w
         = (w, [DbSelect uid; Emit limitReached]))
  ∧ (checkQuota (quotaColumns p) = true →
       Emit limitReached
         ∉ (startConversation socketId env scenario (Some uid) w).2).
Proof.
  intros Hu Hs Hp.
  assert (Hspec := overDailyLimit_spec (quotaColumns p)).
  unfold checkQuota. cbn [quotaColumns q_is_premium q_daily_conversations]
    in Hspec.
  rewrite negb_true_iff, negb_false_iff.
  split; [| split; [| split; [| split]]].
  - split.
    + intros Hq. destruct (is_premium p); [by left | right].
      destruct (Z.lt_ge_cases (daily_conversations p) 3) as [|Hge]; [done |].
      assert (overDailyLimit (quotaColumns p) = true) by (by apply Hspec).
      congruence.
    + intros Hor. destruct (overDailyLimit (quotaColumns p)); [| done].
      destruct Hspec as [[Hnp Hge] _]; [done |].
      destruct Hor as [Hprem | Hlt]; [congruence | lia].
  - intros Hprem. destruct (overDailyLimit (quotaColumns p)); [| done].
    destruct Hspec as [[Hnp _] _]; [done | congruence].
  - exact Hspec.
  - intros Hq. by apply (startConversation_denied _ _ _ _ p).
  - intros Hq. by apply (startConversation_allowed_no_limitReached _ _ _ _ p).
Qed.

Lemma startConversation_quota_gate_witness :
  let p := mkProfile "u1" 4 (Some "2024-05-02") (Some "2024-05-02") 3 false in
  let w := mkWorld {[ "u1" := p ]} ∅ in
  startConversation "sock-1" (mkStartEnv true true (Some "Hello!")) "At a cafe"
    (Some "u1") w
  = (w, [DbSelect "u1"; Emit limitReached]).
Proof.
  intros p w.
  apply (startConversation_quota_gate "sock-1" "At a cafe" "u1"
           (mkStartEnv true true (Some "Hello!")) p w);
    [done | reflexivity | reflexivity | reflexivity].
Defined.

(** After an accepted reconciliation the stored row is current for today,
    whatever it was before. *)
Lemma applyUpdates_current (today yesterdayStr : DayId) (user : Profile) :
  (computeUpdates today yesterdayStr user).2 = true →
  let p' := applyUpdates (computeUpdates today yesterdayStr user).1 user in
  last_login_date p' = Some today
  ∧ last_conversation_date p' = Some today
  ∧ (last_conversation_date user ≠ Some today → daily_conversations p' = 0)
  ∧ is_premium p' = is_premium user.
Proof.
  unfold computeUpdates.
  repeat case_bool_decide; cbn; intros Hn; try discriminate Hn;
    repeat split; try done; congruence.
Qed.

(** C1 (as stated, refuted).  A non-premium profile whose
    [last_conversation_date] is an earlier day and whose stored counter is 3
    is refused by [startConversation]: the handler answers [limitReached]
    and registers no session. *)
Lemma stale_counter_still_blocks_start :
  let p := mkProfile "u1" 4 (Some "2024-05-01") (Some "2024-05-01") 3 false in
  let w := mkWorld {[ "u1" := p ]} ∅ in
  is_premium p = false
  ∧ last_conversation_date p ≠ Some "2024-05-02"
  ∧ startConversation "sock-1" (mkStartEnv true true (Some "Hello!"))
      "At a cafe" (Some "u1") w
    = (w, [DbSelect "u1"; Emit limitReached]).
Proof.
  intros p w.
  split; [reflexivity | split; [discriminate | vm_compute; reflexivity]].
Qed.

(** C1 (amended).  For a non-premium profile whose [last_conversation_date]
    is not today, [startConversation] does not take the counter for zero: it
    decides on the stored [daily_conversations] as it is, answering
    [limitReached] exactly when that value is 3 or more, and it leaves the
    stored profiles as they are.  Once the reset of [getUserData] has been
    written for the profile, the stored counter is 0 and [startConversation]
    does not answer [limitReached]. *)
Theorem startConversation_reads_stored_counter
    (socketId scenario uid : string) (env : StartEnv) (p : Profile)
    (w : World) (today : DayId) :
  uid ≠ EmptyString →
  s_select_ok env = true →
  profiles w !! uid = Some p →
  is_premium p = false →
  last_conversation_date p ≠ Some today →
  (Emit limitReached
     ∈ (startConversation socketId env scenario (Some uid) w).2
   ↔ 3 ≤ daily_conversations p)
  ∧ profiles (startConversation socketId env scenario (Some uid) w).1
    = profiles w
  ∧ ∀ (yesterdayStr : DayId) (fenv : FetchEnv),
      f_select_ok fenv = true →
      f_update_ok fenv = true →
      let w' := (getUserData today yesterdayStr fenv (Some uid) w).1 in
      daily_conversations <$> profiles w' !! uid = Some 0
      ∧ Emit limitReached
          ∉ (startConversation socketId env scenario (Some uid) w').2.
Proof.
  intros Hu Hs Hp Hnp Hstale. split; [| split].
  - destruct (overDailyLimit (quotaColumns p)) eqn:Hq.
    + rewrite (startConversation_denied socketId env scenario uid p w) by done.
      apply overDailyLimit_spec in Hq as [_ Hge]. cbn in Hge.
      split; [done |]. intros _. cbn [snd]. set_solver.
    + split.
      * intros Hin.
        by apply (startConversation_allowed_no_limitReached
                    socketId env scenario uid p w) in Hin.
      * intros Hge.
        assert (overDailyLimit (quotaColumns p) = true) as Hq'
          by (by apply overDailyLimit_spec).
        congruence.
  - destruct (overDailyLimit (quotaColumns p)) eqn:Hq.
    + by rewrite (startConversation_denied socketId env scenario uid p w).
    + rewrite (startConversation_allowed socketId env scenario uid p w)
        by done.
      by destruct (s_chat_created env).
  - intros yesterdayStr fenv Hfs Hfu w'.
    destruct (computeUpdates_stale_counter today yesterdayStr p Hstale)
      as (Hneeded & _ & _).
    destruct (applyUpdates_current today yesterdayStr p Hneeded)
      as (_ & _ & Hzero & Hprem).
    subst w'.
    rewrite (getUserData_update_accepted today yesterdayStr fenv uid p w)
      by done.
    cbn [fst profiles]. rewrite lookup_insert_eq. cbn [fmap option_fmap option_map].
    rewrite (Hzero Hstale). split; [done |].
    apply (startConversation_allowed_no_limitReached socketId env scenario uid
             (applyUpdates (computeUpdates today yesterdayStr p).1 p));
      [done | done | cbn [profiles]; apply lookup_insert_eq |].
    destruct (overDailyLimit _) eqn:Hq; [| done].
    apply overDailyLimit_spec in Hq as [_ Hge].
    cbn [quotaColumns q_daily_conversations] in Hge.
    rewrite (Hzero Hstale) in Hge. lia.
Qed.

Lemma startConversation_reads_stored_counter_witness :
  let p := mkProfile "u1" 4 (Some "2024-05-01") (Some "2024-05-01") 3 false in
  let w := mkWorld {[ "u1" := p ]} ∅ in
  Emit limitReached
    ∈ (startConversation "sock-1" (mkStartEnv true true (Some "Hello!"))
         "At a cafe" (Some "u1") w).2
  ↔ 3 ≤ daily_conversations p.
Proof.
  intros p w.
  apply (startConversation_reads_stored_counter "sock-1" "At a cafe" "u1"
           (mkStartEnv true true (Some "Hello!")) p w "2024-05-02");
    [done | reflexivity | reflexivity | reflexivity | discriminate].
Defined.

(** C4.  The login reconciliation of [getUserData] sets the streak to the
    old streak plus one when [last_login_date] is yesterday, and to 1 when
    [last_login_date] is absent or any day other than today and yesterday;
    this is the value written to the store and sent back in [userData]. *)
Theorem getUserData_streak
    (today yesterdayStr : DayId) (env : FetchEnv) (uid : string)
    (user : Profile) (w : World) :
  uid ≠ EmptyString →
  f_select_ok env = true →
  f_update_ok env = true →
  profiles w !! uid = Some user →
  let updates := (computeUpdates today yesterdayStr user).1 in
  let res := getUserData today yesterdayStr env (Some uid) w in
  (last_login_date user = Some yesterdayStr →
     u_streak updates = Some (streak user + 1)
     ∧ ∃ p', res.2 = [DbSelect uid; DbUpdate uid updates; Emit (userData p')]
             ∧ profiles res.1 !! uid = Some p'
             ∧ streak p' = streak user + 1)
  ∧ (last_login_date user ≠ Some yesterdayStr →
     last_login_date user ≠ Some today →
     u_streak updates = Some 1
     ∧ ∃ p', res.2 = [DbSelect uid; DbUpdate uid updates; Emit (userData p')]
             ∧ profiles res.1 !! uid = Some p'
             ∧ streak p' = 1).
Proof.
  intros Hu Hs Hw Hp updates res. split.
  - intros Hy.
    assert (u_streak updates = Some (streak user + 1)) as Hst
      by (by apply computeUpdates_streak_yesterday).
    split; [done |]. exists (applyUpdates updates user).
    subst res.
    rewrite (getUserData_update_accepted today yesterdayStr env uid user w)
      by (try done; by apply computeUpdates_needed_yesterday).
    cbn [fst snd profiles]. fold updates.
    rewrite lookup_insert_eq. repeat split.
    cbn [applyUpdates streak]. by rewrite Hst.
  - intros Hy Ht.
    assert (u_streak updates = Some 1) as Hst
      by (by apply computeUpdates_streak_gap).
    split; [done |]. exists (applyUpdates updates user).
    subst res.
    rewrite (getUserData_update_accepted today yesterdayStr env uid user w)
      by (try done; by apply computeUpdates_needed_not_today).
    cbn [fst snd profiles]. fold updates.
    rewrite lookup_insert_eq. repeat split.
    cbn [applyUpdates streak]. by rewrite Hst.
Qed.

Lemma getUserData_streak_witness :
  let user :=
    mkProfile "u1" 2 (Some "2024-05-01") (Some "2024-05-02") 1 false in
  let w := mkWorld {[ "u1" := user ]} ∅ in
  u_streak (computeUpdates "2024-05-02" "2024-05-01" user).1 = Some 3
  ∧ ∃ p',
      (getUserData "2024-05-02" "2024-05-01" (mkFetchEnv true true)
         (Some "u1") w).2
      = [DbSelect "u1";
         DbUpdate "u1" (computeUpdates "2024-05-02" "2024-05-01" user).1;
         Emit (userData p')]
      ∧ profiles
          (getUserData "2024-05-02" "2024-05-01" (mkFetchEnv true true)
             (Some "u1") w).1 !! "u1" = Some p'
      ∧ streak p' = 3.
Proof.
  intros user w.
  apply (getUserData_streak "2024-05-02" "2024-05-01" (mkFetchEnv true true)
           "u1" user w);
    [done | reflexivity | reflexivity | reflexivity | reflexivity].
Defined.

(** When the two day identifiers read from the clock are different days, a
    profile that is already current for today ([last_login_date] and
    [last_conversation_date] both today) gets no update and no store write
    and is sent back as it is, leaving the state untouched; a second fetch
    does exactly the same. *)
Theorem getUserData_current_profile
    (today yesterdayStr : DayId) (env : FetchEnv) (uid : string)
    (user : Profile) (w : World) :
  yesterdayStr ≠ today →
  uid ≠ EmptyString →
  f_select_ok env = true →
  profiles w !! uid = Some user →
  last_login_date user = Some today →
  last_conversation_date user = Some today →
  computeUpdates today yesterdayStr user = (noUpdates, false)
  ∧ getUserData today yesterdayStr env (Some uid) w
    = (w, [DbSelect uid; Emit (userData user)])
  ∧ dbWrites (getUserData today yesterdayStr env (Some uid) w).2 = []
  ∧ getUserData today yesterdayStr env (Some uid)
      (getUserData today yesterdayStr env (Some uid) w).1
    = getUserData today yesterdayStr env (Some uid) w.
Proof.
  intros Hne Hu Hs Hp Hl Hc.
  assert (computeUpdates today yesterdayStr user = (noUpdates, false)) as Hcu
    by (by apply computeUpdates_current).
  assert (getUserData today yesterdayStr env (Some uid) w
          = (w, [DbSelect uid; Emit (userData user)])) as Hg.
  { apply getUserData_no_update; try done. by rewrite Hcu. }
  split; [done |]. split; [done |]. rewrite Hg. by split.
Qed.

Lemma getUserData_current_profile_witness :
  let user :=
    mkProfile "u1" 3 (Some "2024-05-02") (Some "2024-05-02") 1 false in
  let w := mkWorld {[ "u1" := user ]} ∅ in
  getUserData "2024-05-02" "2024-05-01" (mkFetchEnv true true) (Some "u1") w
  = (w, [DbSelect "u1"; Emit (userData user)]).
Proof.
  intros user w.
  apply (getUserData_current_profile "2024-05-02" "2024-05-01"
           (mkFetchEnv true true) "u1" user w);
    [done | done | reflexivity | reflexivity | reflexivity | reflexivity].
Defined.

(** C8 (the code at the failing input).  The handler reads the clock twice
    (lines 45 and 46) and tests [yesterdayStr] before [today] (lines 67 and
    70).  When both readings name the same day, as when midnight falls
    between them, a profile that is current for today takes the first
    branch: the update is not empty, [streak + 1] is written and sent back,
    and the next such fetch adds one more. *)
Lemma getUserData_current_profile_same_day_ids :
  let user :=
    mkProfile "u1" 3 (Some "2024-05-02") (Some "2024-05-02") 1 false in
  let w := mkWorld {[ "u1" := user ]} ∅ in
  let env := mkFetchEnv true true in
  let res := getUserData "2024-05-02" "2024-05-02" env (Some "u1") w in
  last_login_date user = Some "2024-05-02"
  ∧ last_conversation_date user = Some "2024-05-02"
  ∧ computeUpdates "2024-05-02" "2024-05-02" user
    = (set_streak 4 noUpdates, true)
  ∧ res.2
    = [DbSelect "u1"; DbUpdate "u1" (set_streak 4 noUpdates);
       Emit (userData
               (mkProfile "u1" 4 (Some "2024-05-02") (Some "2024-05-02") 1
                  false))]
  ∧ streak <$> profiles res.1 !! "u1" = Some 4
  ∧ streak
      <$> profiles
            (getUserData "2024-05-02" "2024-05-02" env (Some "u1") res.1).1
          !! "u1"
    = Some 5.
Proof. intros user w env res. repeat split; vm_compute; reflexivity. Qed.

(** X4.  A fetch whose write was accepted leaves a row that the next fetch
    of the same day returns unchanged, without a write. *)
Lemma getUserData_second_fetch_same_day
    (today yesterdayStr : DayId) (env env2 : FetchEnv) (uid : string)
    (user : Profile) (w : World) :
  yesterdayStr ≠ today →
  uid ≠ EmptyString →
  f_select_ok env = true → f_update_ok env = true →
  f_select_ok env2 = true →
  profiles w !! uid = Some user →
  ∃ p',
    profiles (getUserData today yesterdayStr env (Some uid) w).1 !! uid
      = Some p'
    ∧ getUserData today yesterdayStr env2 (Some uid)
        (getUserData today yesterdayStr env (Some uid) w).1
      = ((getUserData today yesterdayStr env (Some uid) w).1,
         [DbSelect uid; Emit (userData p')]).
Proof.
  intros Hne Hu Hs Hw Hs2 Hp.
  destruct (computeUpdates today yesterdayStr user).2 eqn:Hn.
  - rewrite (getUserData_update_accepted today yesterdayStr env uid user w)
      by done.
    cbn [fst]. eexists. split; [apply lookup_insert_eq |].
    destruct (applyUpdates_current today yesterdayStr user Hn)
      as (Hl & Hc & _).
    apply getUserData_no_update; try done.
    + apply lookup_insert_eq.
    + by rewrite computeUpdates_current.
  - rewrite (getUserData_no_update today yesterdayStr env uid user w) by done.
    cbn [fst]. exists user. split; [done |].
    by apply getUserData_no_update.
Qed.

(** C9.  When the store refuses the reconciliation write, [getUserData]
    sends the fetched, pre-update profile in a [userData] event (no error
    event, no silence), and the stored row stays as it was. *)
Theorem getUserData_write_failure
    (today yesterdayStr : DayId) (env : FetchEnv) (uid : string)
    (user : Profile) (w : World) :
  uid ≠ EmptyString →
  f_select_ok env = true →
  profiles w !! uid = Some user →
  (computeUpdates today yesterdayStr user).2 = true →
  f_update_ok env = false →
  emitted (getUserData today yesterdayStr env (Some uid) w).2
    = [userData user]
  ∧ (getUserData today yesterdayStr env (Some uid) w).1 = w
  ∧ profiles (getUserData today yesterdayStr env (Some uid) w).1 !! uid
    = Some user.
Proof.
  intros Hu Hs Hp Hn Hw.
  rewrite (getUserData_update_rejected today yesterdayStr env uid user w)
    by done.
  by repeat split.
Qed.

Lemma getUserData_write_failure_witness :
  let user :=
    mkProfile "u1" 2 (Some "2024-05-01") (Some "2024-05-01") 3 false in
  let w := mkWorld {[ "u1" := user ]} ∅ in
  emitted
    (getUserData "2024-05-02" "2024-05-01" (mkFetchEnv true false)
       (Some "u1") w).2
  = [userData user].
Proof.
  intros user w.
  apply (getUserData_write_failure "2024-05-02" "2024-05-01"
           (mkFetchEnv true false) "u1" user w);
    [done | reflexivity | reflexivity | reflexivity | reflexivity].
Defined.

(** ** The streamed reply *)

Lemma forwardChunks_spec (cs : list Chunk) :
  forwardChunks cs = (aiMessageChunk <$> readableTexts cs, forallb isText cs).
Proof.
  induction cs as [| [s |] rest IH]; [reflexivity | | reflexivity].
  cbn [forwardChunks readableTexts forallb isText]. by rewrite IH.
Qed.

Lemma readableTexts_all (ts : list string) :
  readableTexts (Text <$> ts) = ts ∧ forallb isText (Text <$> ts) = true.
Proof.
  induction ts as [| t ts [IH1 IH2]]; [done |].
  cbn. by rewrite IH1, IH2.
Qed.

Lemma streamReply_spec (o : option Stream) :
  streamReply o
  = (aiMessageChunk <$> delivered o)
      ++ [if streamCompletes o then aiMessageEnd
          else error "Failed to get AI response."].
Proof.
  destruct o as [st |]; [| reflexivity].
  unfold streamReply, delivered, streamCompletes.
  rewrite forwardChunks_spec.
  by destruct (forallb isText (chunks st) && negb (throwsAtEnd st)).
Qed.

Lemma emitted_app (t1 t2 : Trace) : emitted (t1 ++ t2) = emitted t1 ++ emitted t2.
Proof. apply omap_app. Qed.

Lemma emitted_Emit (evs : list Event) : emitted (Emit <$> evs) = evs.
Proof. induction evs as [| e evs IH]; [done |]. cbn. by f_equal. Qed.

Lemma emitted_cons_call (a : Action) (t : Trace) :
  (∀ e, a ≠ Emit e) → emitted (a :: t) = emitted t.
Proof. intros Ha. destruct a; try done. by destruct (Ha e). Qed.

Lemma emitted_cons_emit (e : Event) (t : Trace) :
  emitted (Emit e :: t) = e :: emitted t.
Proof. reflexivity. Qed.

Lemma dbWrites_app (t1 t2 : Trace) :
  dbWrites (t1 ++ t2) = dbWrites t1 ++ dbWrites t2.
Proof. apply omap_app. Qed.

Lemma dbWrites_Emit (evs : list Event) : dbWrites (Emit <$> evs) = [].
Proof. by induction evs. Qed.

Lemma completionEvents_app (t1 t2 : Trace) :
  completionEvents (t1 ++ t2) = completionEvents t1 ++ completionEvents t2.
Proof. apply omap_app. Qed.

Lemma completionEvents_chunks (ts : list string) (t : Trace) :
  completionEvents ((Emit <$> (aiMessageChunk <$> ts)) ++ t)
  = completionEvents t.
Proof. induction ts as [| s ts IH]; [done |]. exact IH. Qed.

Lemma completionEvents_streamReply (o : option Stream) :
  completionEvents (Emit <$> streamReply o) = [].
Proof.
  rewrite streamReply_spec, fmap_app, completionEvents_chunks.
  by destruct (streamCompletes o).
Qed.

Lemma aiMessageEnd_not_in_chunks (ts : list string) :
  aiMessageEnd ∉ aiMessageChunk <$> ts.
Proof.
  intros Hin. apply list_elem_of_fmap in Hin as (s & Heq & _). discriminate.
Qed.

(** ** sendMessage, step by step *)

Lemma completionCheck_other (today : DayId) (env : MessageEnv) (n : Z)
    (uid : string) (db : gmap string Profile) :
  n ≠ 5 → completionCheck today env n uid db = (db, []).
Proof.
  intros Hn. unfold completionCheck. by rewrite bool_decide_eq_false_2.
Qed.

Lemma completionCheck_skipped (today : DayId) (env : MessageEnv)
    (uid : string) (db : gmap string Profile) :
  m_select_ok env = false ∨ db !! uid = None
  ∨ (∃ p, db !! uid = Some p ∧ is_premium p = true) →
  completionCheck today env 5 uid db = (db, [DbSelect uid]).
Proof.
  intros Hcase. unfold completionCheck, selectSingle. cbn [bool_decide].
  rewrite bool_decide_eq_true_2 by done.
  destruct (m_select_ok env); [| done].
  destruct Hcase as [? | [Hnone | (p & Hp & Hprem)]]; [done | |].
  - by rewrite Hnone.
  - rewrite Hp. cbn. by rewrite Hprem.
Qed.

Lemma completionCheck_recorded (today : DayId) (env : MessageEnv)
    (uid : string) (db : gmap string Profile) (p : Profile) :
  m_select_ok env = true → db !! uid = Some p → is_premium p = false →
  let u :=
    set_last_conversation_date today
      (set_daily_conversations (daily_conversations p + 1) noUpdates) in
  completionCheck today env 5 uid db
  = ((if m_update_ok env then <[uid := applyUpdates u p]> db else db),
     [DbSelect uid; DbUpdate uid u;
      Emit (conversationCompleted (daily_conversations p + 1))]).
Proof.
  intros Hs Hp Hnp u. unfold completionCheck, selectSingle.
  rewrite bool_decide_eq_true_2 by done.
  rewrite Hs, Hp. cbn. rewrite Hnp. cbn. fold u.
  unfold updateSingle. rewrite Hp. by destruct (m_update_ok env).
Qed.

Lemma sendMessage_step (socketId : string) (today : DayId) (env : MessageEnv)
    (message : string) (w : World) (s : Session) :
  chatSessions w !! socketId = Some s →
  sendMessage socketId today env message w
  = (let r :=
       completionCheck today env (userMessageCount s + 1) (userId s)
         (profiles w) in
     (mkWorld r.1 (<[socketId := bump s]> (chatSessions w)),
      r.2 ++ SendStream message :: (Emit <$> streamReply (m_stream env)))).
Proof.
  intros Hs. unfold sendMessage. rewrite Hs.
  cbn [userMessageCount userId].
  by destruct (completionCheck _ _ _ _ _).
Qed.

Lemma completionCheck_events (today : DayId) (env : MessageEnv) (n : Z)
    (uid : string) (db : gmap string Profile) (e : Event) :
  Emit e ∈ (completionCheck today env n uid db).2 →
  ∃ k, e = conversationCompleted k.
Proof.
  unfold completionCheck.
  repeat first [case_bool_decide | case_match | progress cbn [snd]];
    intros He;
    repeat (apply elem_of_cons in He as [He | He];
            [first [discriminate He | injection He as ->; by eexists] |]);
    by apply elem_of_nil in He.
Qed.

(** A reply that fails: the last event on the socket is the error, and no
    [aiMessageEnd] is emitted. *)
Lemma sendMessage_failed_reply (socketId : string) (today : DayId)
    (env : MessageEnv) (message : string) (w : World) (s : Session) :
  chatSessions w !! socketId = Some s →
  streamCompletes (m_stream env) = false →
  (Emit aiMessageEnd ∉ (sendMessage socketId today env message w).2)
  ∧ last (emitted (sendMessage socketId today env message w).2)
    = Some (error "Failed to get AI response.").
Proof.
  intros Hs Hfail. rewrite (sendMessage_step _ _ _ _ _ _ Hs). cbn [snd].
  rewrite streamReply_spec, Hfail. split.
  - intros Hin. apply elem_of_app in Hin as [Hin | Hin].
    + apply completionCheck_events in Hin as [k Hk]. discriminate.
    + apply elem_of_cons in Hin as [Hin | Hin]; [discriminate |].
      apply list_elem_of_fmap in Hin as (e & Heq & Hin).
      injection Heq as <-.
      apply elem_of_app in Hin as [Hin | Hin].
      * by apply aiMessageEnd_not_in_chunks in Hin.
      * apply list_elem_of_singleton in Hin. discriminate.
  - rewrite emitted_app, emitted_cons_call, emitted_Emit by done.
    rewrite !app_assoc. apply last_snoc.
Qed.

(** ** Claims about the message turn *)

(** C7.  On every message turn of an existing session the reply is relayed
    after the provider call: the readable fragments are emitted as
    [aiMessageChunk] events one by one in the order received, followed by
    exactly one closing event, which is [aiMessageEnd] when the stream ran to
    its end and the error event when the stream failed; in the failing case
    no [aiMessageEnd] is emitted at all. *)
Theorem sendMessage_relays_in_order
    (socketId : string) (today : DayId) (env : MessageEnv) (message : string)
    (w : World) (s : Session) :
  chatSessions w !! socketId = Some s →
  let tr := (sendMessage socketId today env message w).2 in
  (∃ pre,
     tr = pre ++ (SendStream message :: (Emit <$> streamReply (m_stream env)))
     ∧ ∀ e, Emit e ∈ pre → ∃ n, e = conversationCompleted n)
  ∧ streamReply (m_stream env)
    = (aiMessageChunk <$> delivered (m_stream env))
        ++ [if streamCompletes (m_stream env) then aiMessageEnd
            else error "Failed to get AI response."]
  ∧ (∀ ts, m_stream env = Some (mkStream (Text <$> ts) false) →
       streamReply (m_stream env) = (aiMessageChunk <$> ts) ++ [aiMessageEnd])
  ∧ (streamCompletes (m_stream env) = false →
       (Emit aiMessageEnd ∉ tr)
       ∧ last (emitted tr) = Some (error "Failed to get AI response.")).
Proof.
  intros Hs tr. split.
  - subst tr. rewrite (sendMessage_step _ _ _ _ _ _ Hs). cbn [snd].
    eexists. split; [reflexivity |]. apply completionCheck_events.
  - split; [apply streamReply_spec |]. split.
    + intros ts ->. rewrite streamReply_spec.
      cbn [delivered streamCompletes chunks throwsAtEnd].
      by destruct (readableTexts_all ts) as [-> ->].
    + intros Hfail. by apply (sendMessage_failed_reply _ _ _ _ _ s).
Qed.

Lemma sendMessage_relays_in_order_witness :
  let s := mkSession (mkChat "At a cafe") 1 "u1" in
  let w := mkWorld ∅ {[ "sock-1" := s ]} in
  let env :=
    mkMessageEnv true true
      (Some (mkStream [Text "Nice"; Text " to meet you"] false)) in
  streamReply (m_stream env)
  = (aiMessageChunk <$> ["Nice"; " to meet you"]) ++ [aiMessageEnd].
Proof.
  intros s w env.
  apply (sendMessage_relays_in_order "sock-1" "2024-05-02" env "Hi" w s);
    reflexivity.
Defined.

(** C2 (as stated, refuted).  On the fifth message of a non-premium user the
    [conversationCompleted] event is the first event on the socket: it comes
    before every fragment of that message's reply, not after [aiMessageEnd]. *)
Lemma completion_event_precedes_reply :
  let p := mkProfile "u1" 4 (Some "2024-05-02") (Some "2024-05-02") 1 false in
  let s := mkSession (mkChat "At a cafe") 4 "u1" in
  let w := mkWorld {[ "u1" := p ]} {[ "sock-1" := s ]} in
  let env :=
    mkMessageEnv true true
      (Some (mkStream [Text "Nice"; Text " to meet you"] false)) in
  let evs := emitted (sendMessage "sock-1" "2024-05-02" env "Hi" w).2 in
  evs = [conversationCompleted 2; aiMessageChunk "Nice";
         aiMessageChunk " to meet you"; aiMessageEnd]
  ∧ ¬ ∃ before after n,
        evs = before ++ aiMessageEnd :: after
        ∧ conversationCompleted n ∈ after.
Proof.
  intros p s w env evs.
  assert (evs = [conversationCompleted 2; aiMessageChunk "Nice";
                 aiMessageChunk " to meet you"; aiMessageEnd]) as Hevs
    by (vm_compute; reflexivity).
  split; [exact Hevs |].
  rewrite Hevs. intros (before & after & n & Heq & Hin).
  destruct before as [| e1 [| e2 [| e3 [| e4 [| e5 before]]]]];
    simplify_eq/=.
  by apply elem_of_nil in Hin.
Qed.

(** C2 (amended).  When an active session sends its fifth message, the
    profile is fetched and is non-premium, the handler first writes the
    completion and emits [conversationCompleted] carrying exactly 1 plus the
    counter just read from the store, and only then calls the provider and
    relays the reply: the event precedes every fragment of that reply. *)
Theorem sendMessage_fifth_message
    (socketId : string) (today : DayId) (env : MessageEnv) (message : string)
    (w : World) (s : Session) (p : Profile) :
  chatSessions w !! socketId = Some s →
  userMessageCount s = 4 →
  m_select_ok env = true →
  profiles w !! userId s = Some p →
  is_premium p = false →
  (sendMessage socketId today env message w).2
  = [DbSelect (userId s);
     DbUpdate (userId s)
       (set_last_conversation_date today
          (set_daily_conversations (daily_conversations p + 1) noUpdates));
     Emit (conversationCompleted (daily_conversations p + 1));
     SendStream message]
    ++ (Emit <$> streamReply (m_stream env))
  ∧ emitted (sendMessage socketId today env message w).2
    = conversationCompleted (daily_conversations p + 1)
        :: streamReply (m_stream env).
Proof.
  intros Hs Hc Hsel Hp Hnp.
  rewrite (sendMessage_step _ _ _ _ _ _ Hs), Hc.
  change (4 + 1) with 5.
  rewrite (completionCheck_recorded today env (userId s) (profiles w) p)
    by done.
  cbn [snd app]. split; [reflexivity |].
  rewrite !emitted_cons_call, emitted_cons_emit, emitted_cons_call by done.
  by rewrite emitted_Emit.
Qed.

Lemma sendMessage_fifth_message_witness :
  let p := mkProfile "u1" 4 (Some "2024-05-02") (Some "2024-05-02") 1 false in
  let s := mkSession (mkChat "At a cafe") 4 "u1" in
  let w := mkWorld {[ "u1" := p ]} {[ "sock-1" := s ]} in
  let env := mkMessageEnv true true (Some (mkStream [Text "Nice"] false)) in
  emitted (sendMessage "sock-1" "2024-05-02" env "Hi" w).2
  = conversationCompleted 2 :: streamReply (m_stream env).
Proof.
  intros p s w env.
  apply (sendMessage_fifth_message "sock-1" "2024-05-02" env "Hi" w s p);
    reflexivity.
Defined.

(** C10.  On the fifth message, when the profile cannot be fetched (the
    store call fails or finds no row) or the fetched profile is premium, the
    handler issues no store write and emits neither [conversationCompleted]
    nor an error for the completion check, and the stored profiles stay as
    they were.  The reply is streamed all the same: the events on the socket
    are the fragments of the reply in order, one [aiMessageChunk] each,
    closed by [aiMessageEnd] (by the error event only if the stream itself
    failed); a reply of fragments [ts] that ends normally is emitted as
    exactly those chunks followed by [aiMessageEnd]. *)
Theorem sendMessage_fifth_message_skipped
    (socketId : string) (today : DayId) (env : MessageEnv) (message : string)
    (w : World) (s : Session) :
  chatSessions w !! socketId = Some s →
  userMessageCount s = 4 →
  m_select_ok env = false ∨ profiles w !! userId s = None
  ∨ (∃ p, profiles w !! userId s = Some p ∧ is_premium p = true) →
  (sendMessage socketId today env message w).2
  = DbSelect (userId s) :: SendStream message
      :: (Emit <$> streamReply (m_stream env))
  ∧ dbWrites (sendMessage socketId today env message w).2 = []
  ∧ completionEvents (sendMessage socketId today env message w).2 = []
  ∧ emitted (sendMessage socketId today env message w).2
    = streamReply (m_stream env)
  ∧ profiles (sendMessage socketId today env message w).1 = profiles w
  ∧ emitted (sendMessage socketId today env message w).2
    = (aiMessageChunk <$> delivered (m_stream env))
        ++ [if streamCompletes (m_stream env) then aiMessageEnd
            else error "Failed to get AI response."]
  ∧ (∀ ts : list string,
       m_stream env = Some (mkStream (Text <$> ts) false) →
       (sendMessage socketId today env message w).2
       = DbSelect (userId s) :: SendStream message
           :: (Emit <$> ((aiMessageChunk <$> ts) ++ [aiMessageEnd]))
       ∧ emitted (sendMessage socketId today env message w).2
         = (aiMessageChunk <$> ts) ++ [aiMessageEnd]).
Proof.
  intros Hs Hc Hcase.
  rewrite (sendMessage_step _ _ _ _ _ _ Hs), Hc.
  change (4 + 1) with 5.
  rewrite (completionCheck_skipped today env (userId s) (profiles w) Hcase).
  cbn [fst snd app profiles]. split; [reflexivity |].
  split; [apply dbWrites_Emit |].
  split; [apply completionEvents_streamReply |].
  rewrite !emitted_cons_call, emitted_Emit by done.
  split; [reflexivity |]. split; [reflexivity |].
  split; [apply streamReply_spec |].
  intros ts Hts. rewrite streamReply_spec, Hts.
  cbn [delivered streamCompletes chunks throwsAtEnd].
  by destruct (readableTexts_all ts) as [-> ->].
Qed.

Lemma sendMessage_fifth_message_skipped_witness :
  let p := mkProfile "u1" 4 (Some "2024-05-02") (Some "2024-05-02") 1 true in
  let s := mkSession (mkChat "At a cafe") 4 "u1" in
  let w := mkWorld {[ "u1" := p ]} {[ "sock-1" := s ]} in
  let env :=
    mkMessageEnv true true
      (Some (mkStream [Text "Nice"; Text " to meet you"] false)) in
  (sendMessage "sock-1" "2024-05-02" env "Hi" w).2
  = [DbSelect "u1"; SendStream "Hi"; Emit (aiMessageChunk "Nice");
     Emit (aiMessageChunk " to meet you"); Emit aiMessageEnd]
  ∧ emitted (sendMessage "sock-1" "2024-05-02" env "Hi" w).2
    = [aiMessageChunk "Nice"; aiMessageChunk " to meet you"; aiMessageEnd].
Proof.
  intros p s w env.
  assert (chatSessions w !! "sock-1" = Some s) as Hs by reflexivity.
  assert (userMessageCount s = 4) as Hc by reflexivity.
  assert (m_select_ok env = false ∨ profiles w !! userId s = None
          ∨ (∃ q, profiles w !! userId s = Some q ∧ is_premium q = true))
    as Hcase.
  { right. right. exists p. split; reflexivity. }
  exact (proj2 (proj2 (proj2 (proj2 (proj2 (proj2
           (sendMessage_fifth_message_skipped "sock-1" "2024-05-02" env "Hi"
              w s Hs Hc Hcase))))))
           ["Nice"; " to meet you"] eq_refl).
Defined.

(** C3 (as stated, refuted).  A [startConversation] whose opening exchange
    with the provider fails reports the error, yet the session it registered
    before the call stays in [chatSessions]: the socket that had no session
    now has one, and a following [sendMessage] is served from it. *)
Lemma failed_start_leaves_session :
  let p := mkProfile "u1" 4 (Some "2024-05-02") (Some "2024-05-02") 0 false in
  let w := mkWorld {[ "u1" := p ]} ∅ in
  let res :=
    startConversation "sock-1" (mkStartEnv true true None) "At a cafe"
      (Some "u1") w in
  chatSessions w !! "sock-1" = None
  ∧ emitted res.2 = [error "Failed to start conversation."]
  ∧ chatSessions res.1 !! "sock-1"
    = Some (mkSession (mkChat "At a cafe") 0 "u1")
  ∧ emitted
      (sendMessage "sock-1" "2024-05-02"
         (mkMessageEnv true true (Some (mkStream [Text "Hello"] false)))
         "Hi" res.1).2
    = [aiMessageChunk "Hello"; aiMessageEnd].
Proof. intros p w res. repeat split; vm_compute; reflexivity. Qed.

(** C3 (amended).  A provider failure is caught inside the handler and
    reported as an [error] event.  In [startConversation], a failure while
    the chat object is built leaves the state unchanged, whereas a failure of
    the opening exchange leaves the session that was registered just before
    the call (message count 0) in [chatSessions].  In [sendMessage], a
    session whose reply failed stays registered with its message count
    already incremented. *)
Theorem provider_failure_is_reported
    (socketId scenario uid : string) (env : StartEnv) (p : Profile)
    (w : World) (today : DayId) (menv : MessageEnv) (message : string)
    (w2 : World) (s : Session) :
  uid ≠ EmptyString →
  s_select_ok env = true →
  profiles w !! uid = Some p →
  overDailyLimit (quotaColumns p) = false →
  chatSessions w2 !! socketId = Some s →
  streamCompletes (m_stream menv) = false →
  (s_chat_created env = false →
     startConversation socketId env scenario (Some uid) w
     = (w, [DbSelect uid; Emit (error "Failed to start conversation.")]))
  ∧ (s_chat_created env = true → s_opening env = None →
     emitted (startConversation socketId env scenario (Some uid) w).2
     = [error "Failed to start conversation."]
     ∧ (startConversation socketId env scenario (Some uid) w).1
       = mkWorld (profiles w)
           (<[socketId := mkSession (mkChat scenario) 0 uid]>
              (chatSessions w)))
  ∧ last (emitted (sendMessage socketId today menv message w2).2)
    = Some (error "Failed to get AI response.")
  ∧ chatSessions (sendMessage socketId today menv message w2).1
    = <[socketId := mkSession (chat s) (userMessageCount s + 1) (userId s)]>
        (chatSessions w2).
Proof.
  intros Hu Hsel Hp Hq Hs Hfail.
  rewrite (startConversation_allowed socketId env scenario uid p w) by done.
  split; [by intros -> |].
  split; [by intros -> -> |].
  split.
  - by apply (sendMessage_failed_reply socketId today menv message w2 s).
  - by rewrite (sendMessage_step _ _ _ _ _ _ Hs).
Qed.

Lemma provider_failure_is_reported_witness :
  let p := mkProfile "u1" 4 (Some "2024-05-02") (Some "2024-05-02") 0 false in
  let w := mkWorld {[ "u1" := p ]} ∅ in
  let s := mkSession (mkChat "At a cafe") 2 "u1" in
  let w2 := mkWorld {[ "u1" := p ]} {[ "sock-1" := s ]} in
  let menv := mkMessageEnv true true (Some (mkStream [Text "Nice"] true)) in
  last (emitted (sendMessage "sock-1" "2024-05-02" menv "Hi" w2).2)
  = Some (error "Failed to get AI response.")
  ∧ chatSessions (sendMessage "sock-1" "2024-05-02" menv "Hi" w2).1
    = <[ "sock-1" := mkSession (chat s) (userMessageCount s + 1) (userId s)]>
        (chatSessions w2).
Proof.
  intros p w s w2 menv.
  apply (provider_failure_is_reported "sock-1" "At a cafe" "u1"
           (mkStartEnv true true None) p w "2024-05-02" menv "Hi" w2 s);
    [done | reflexivity | reflexivity | reflexivity | reflexivity
    | reflexivity].
Defined.

(** ** Consecutive messages on one socket *)

Lemma sendMessages_cons (socketId : string) (today : DayId)
    (env : MessageEnv) (message : string) (rest : list (MessageEnv * string))
    (w : World) :
  (sendMessages socketId today ((env, message) :: rest) w).2
  = (sendMessage socketId today env message w).2
      :: (sendMessages socketId today rest
            (sendMessage socketId today env message w).1).2.
Proof.
  cbn [sendMessages].
  destruct (sendMessage socketId today env message w) as [w1 tr].
  cbn [fst snd]. by destruct (sendMessages socketId today rest w1).
Qed.

Lemma sendMessages_length (socketId : string) (today : DayId)
    (turns : list (MessageEnv * string)) (w : World) :
  length (sendMessages socketId today turns w).2 = length turns.
Proof.
  revert w. induction turns as [| [env message] rest IH]; intros w; [done |].
  rewrite sendMessages_cons. cbn [length]. by rewrite IH.
Qed.

Section Run.
Variables (socketId : string) (today : DayId).

(** A turn whose message count is not 5 writes nothing and emits no
    completion. *)
Lemma sendMessages_other_turn (turns : list (MessageEnv * string)) :
  ∀ (w : World) (s : Session) (k : nat) (tr : Trace),
    chatSessions w !! socketId = Some s →
    (sendMessages socketId today turns w).2 !! k = Some tr →
    userMessageCount s + Z.of_nat k + 1 ≠ 5 →
    dbWrites tr = [] ∧ completionEvents tr = [].
Proof.
  induction turns as [| [env message] rest IH]; intros w s k tr Hs Hk Hne;
    [done |].
  rewrite sendMessages_cons in Hk.
  rewrite (sendMessage_step _ _ _ _ _ _ Hs) in Hk. cbn [fst snd] in Hk.
  destruct k as [| k'].
  - injection Hk as <-.
    rewrite completionCheck_other by lia. cbn [snd app].
    split; [apply dbWrites_Emit | apply completionEvents_streamReply].
  - cbn [lookup list_lookup] in Hk.
    eapply (IH _ (bump s) k' tr); [| exact Hk |].
    + cbn [chatSessions]. apply lookup_insert_eq.
    + cbn [bump userMessageCount]. lia.
Qed.

(** The turn whose message count is 5 runs the completion check against
    the profiles as they were when the session had sent fewer messages:
    no earlier turn of the session has written to the store. *)
Lemma sendMessages_fifth_turn (turns : list (MessageEnv * string)) :
  ∀ (w : World) (s : Session) (k : nat) (tr : Trace) (env : MessageEnv)
    (message : string),
    chatSessions w !! socketId = Some s →
    userMessageCount s + Z.of_nat k + 1 = 5 →
    turns !! k = Some (env, message) →
    (sendMessages socketId today turns w).2 !! k = Some tr →
    tr = (completionCheck today env 5 (userId s) (profiles w)).2
           ++ SendStream message :: (Emit <$> streamReply (m_stream env)).
Proof.
  induction turns as [| [env0 message0] rest IH];
    intros w s k tr env message Hs Hc Hturn Hk; [done |].
  rewrite sendMessages_cons in Hk.
  rewrite (sendMessage_step _ _ _ _ _ _ Hs) in Hk. cbn [fst snd] in Hk.
  destruct k as [| k'].
  - injection Hk as <-. injection Hturn as -> ->.
    by replace (userMessageCount s + 1) with 5 by lia.
  - cbn [lookup list_lookup] in Hk, Hturn.
    rewrite completionCheck_other in Hk by lia. cbn [fst] in Hk.
    apply (IH _ (bump s) k' tr env message) in Hk; [done | | | done].
    + cbn [chatSessions]. apply lookup_insert_eq.
    + cbn [bump userMessageCount]. lia.
Qed.
End Run.

(** A list of lists that is empty everywhere but at one index, where it has
    at most one element, has at most one element in all. *)
Lemma concat_single_slot {A : Type} (l : list (list A)) (i : nat) :
  (∀ k x, l !! k = Some x → k ≠ i → x = []) →
  (∀ x, l !! i = Some x → (length x ≤ 1)%nat) →
  (length (concat l) ≤ 1)%nat.
Proof.
  revert i. induction l as [| x l IH]; intros i Hother Hslot; [cbn; lia |].
  cbn [concat]. rewrite length_app. destruct i as [| i'].
  - assert (length x ≤ 1)%nat by (by apply Hslot).
    assert (length (concat l) ≤ 0)%nat; [| lia].
    clear IH Hslot. induction l as [| y l IHl]; [done |].
    cbn [concat]. rewrite length_app.
    rewrite (Hother 1%nat y) by done. cbn [length].
    apply IHl. intros k z Hk Hne. destruct k as [| k']; [done |].
    by apply (Hother (S (S k')) z).
  - rewrite (Hother 0%nat x) by done. cbn [length].
    apply (IH i').
    + intros k z Hk Hne. apply (Hother (S k) z); [done | lia].
    + intros z Hz. by apply Hslot.
Qed.

(** C6.  For a session that starts with a message count of 0, whatever
    messages follow and whatever the store and the provider answer: every
    turn other than the fifth issues no store write and emits no
    [conversationCompleted]; the fifth turn does both exactly when the
    profile fetched on that turn exists and is non-premium, and then the
    write sets [daily_conversations] to the fetched value plus 1 and
    [last_conversation_date] to today; over the whole session there is at
    most one such write and one such event. *)
Theorem completion_recorded_on_fifth_turn_only
    (socketId : string) (today : DayId) (turns : list (MessageEnv * string))
    (w : World) (s : Session) :
  chatSessions w !! socketId = Some s →
  userMessageCount s = 0 →
  let trs := (sendMessages socketId today turns w).2 in
  length trs = length turns
  ∧ (∀ (k : nat) (tr : Trace), trs !! k = Some tr → k ≠ 4%nat →
       dbWrites tr = [] ∧ completionEvents tr = [])
  ∧ (∀ (tr : Trace) (env : MessageEnv) (message : string),
       trs !! 4%nat = Some tr → turns !! 4%nat = Some (env, message) →
       match data (selectSingle (m_select_ok env) (profiles w) (userId s)) with
       | Some p =>
           if is_premium p then dbWrites tr = [] ∧ completionEvents tr = []
           else
             dbWrites tr
             = [(userId s,
                 {| u_streak := None; u_last_login_date := None;
                    u_daily_conversations := Some (daily_conversations p + 1);
                    u_last_conversation_date := Some today |})]
             ∧ completionEvents tr = [daily_conversations p + 1]
       | None => dbWrites tr = [] ∧ completionEvents tr = []
       end)
  ∧ (length (concat (dbWrites <$> trs)) ≤ 1)%nat
  ∧ (length (concat (completionEvents <$> trs)) ≤ 1)%nat.
Proof.
  intros Hs Hc trs.
  assert (∀ (k : nat) (tr : Trace), trs !! k = Some tr → k ≠ 4%nat →
            dbWrites tr = [] ∧ completionEvents tr = []) as Hother.
  { intros k tr Hk Hne.
    apply (sendMessages_other_turn socketId today turns w s k tr Hs Hk).
    lia. }
  assert (∀ (tr : Trace) (env : MessageEnv) (message : string),
            trs !! 4%nat = Some tr → turns !! 4%nat = Some (env, message) →
            match
              data (selectSingle (m_select_ok env) (profiles w) (userId s))
            with
            | Some p =>
                if is_premium p
                then dbWrites tr = [] ∧ completionEvents tr = []
                else
                  dbWrites tr
                  = [(userId s,
                      {| u_streak := None; u_last_login_date := None;
                         u_daily_conversations :=
                           Some (daily_conversations p + 1);
                         u_last_conversation_date := Some today |})]
                  ∧ completionEvents tr = [daily_conversations p + 1]
            | None => dbWrites tr = [] ∧ completionEvents tr = []
            end) as Hfifth.
  { intros tr env message Hk Hturn.
    rewrite (sendMessages_fifth_turn socketId today turns w s 4 tr env message
               Hs ltac:(lia) Hturn Hk).
    rewrite dbWrites_app, completionEvents_app.
    change (dbWrites (SendStream message :: (Emit <$> streamReply (m_stream env))))
      with (dbWrites (Emit <$> streamReply (m_stream env))).
    change (completionEvents
              (SendStream message :: (Emit <$> streamReply (m_stream env))))
      with (completionEvents (Emit <$> streamReply (m_stream env))).
    rewrite dbWrites_Emit, completionEvents_streamReply, !app_nil_r.
    unfold selectSingle.
    destruct (m_select_ok env) eqn:Hsel.
    - destruct (profiles w !! userId s) as [p |] eqn:Hp; cbn [data].
      + destruct (is_premium p) eqn:Hprem.
        * rewrite completionCheck_skipped by eauto. by split.
        * by rewrite (completionCheck_recorded today env (userId s)
                        (profiles w) p).
      + rewrite completionCheck_skipped by eauto. by split.
    - cbn [data]. rewrite completionCheck_skipped by eauto. by split. }
  split; [apply sendMessages_length |].
  split; [exact Hother |]. split; [exact Hfifth |].
  split.
  - apply (concat_single_slot _ 4).
    + intros k x Hk Hne. apply list_lookup_fmap_Some in Hk as (tr & -> & Hk).
      by apply (Hother k tr).
    + intros x Hx. apply list_lookup_fmap_Some in Hx as (tr & -> & Hk).
      destruct (turns !! 4%nat) as [[env message] |] eqn:Hturn.
      * specialize (Hfifth tr env message Hk eq_refl).
        repeat case_match; destruct Hfifth as [-> _]; cbn; lia.
      * apply lookup_ge_None in Hturn. apply lookup_lt_Some in Hk.
        subst trs. rewrite sendMessages_length in Hk. lia.
  - apply (concat_single_slot _ 4).
    + intros k x Hk Hne. apply list_lookup_fmap_Some in Hk as (tr & -> & Hk).
      by apply (Hother k tr).
    + intros x Hx. apply list_lookup_fmap_Some in Hx as (tr & -> & Hk).
      destruct (turns !! 4%nat) as [[env message] |] eqn:Hturn.
      * specialize (Hfifth tr env message Hk eq_refl).
        repeat case_match; destruct Hfifth as [_ ->]; cbn; lia.
      * apply lookup_ge_None in Hturn. apply lookup_lt_Some in Hk.
        subst trs. rewrite sendMessages_length in Hk. lia.
Qed.

Lemma completion_recorded_on_fifth_turn_only_witness :
  let p := mkProfile "u1" 4 (Some "2024-05-02") (Some "2024-05-02") 1 false in
  let s := mkSession (mkChat "At a cafe") 0 "u1" in
  let w := mkWorld {[ "u1" := p ]} {[ "sock-1" := s ]} in
  let env := mkMessageEnv true true (Some (mkStream [Text "Nice"] false)) in
  let turns := replicate 7 (env, "Hi") in
  let trs := (sendMessages "sock-1" "2024-05-02" turns w).2 in
  length trs = 7%nat
  ∧ completionEvents <$> trs = [[]; []; []; []; [2]; []; []]
  ∧ (length (concat (dbWrites <$> trs)) ≤ 1)%nat.
Proof.
  intros p s w env turns trs.
  split; [| split].
  - apply (completion_recorded_on_fifth_turn_only "sock-1" "2024-05-02"
             turns w s); reflexivity.
  - vm_compute. reflexivity.
  - apply (completion_recorded_on_fifth_turn_only "sock-1" "2024-05-02"
             turns w s); reflexivity.
Defined.

(** ** More on getUserData *)

Lemma truthyUserId_Some (payloadUserId : option string) (uid : string) :
  truthyUserId payloadUserId = Some uid →
  payloadUserId = Some uid ∧ uid ≠ EmptyString.
Proof.
  destruct payloadUserId as [s |]; [| done]. cbn.
  case_bool_decide; [done |]. by intros [= ->].
Qed.

(** The state [getUserData] leaves: either the one it found, or the one
    where the fetched row has been overwritten by the reconciliation. *)
Lemma getUserData_state (today yesterdayStr : DayId) (env : FetchEnv)
    (payloadUserId : option string) (w : World) :
  (getUserData today yesterdayStr env payloadUserId w).1 = w
  ∨ ∃ uid user,
      truthyUserId payloadUserId = Some uid
      ∧ profiles w !! uid = Some user
      ∧ (getUserData today yesterdayStr env payloadUserId w).1
        = mkWorld
            (<[uid := applyUpdates (computeUpdates today yesterdayStr user).1
                        user]> (profiles w))
            (chatSessions w).
Proof.
  unfold getUserData.
  destruct (truthyUserId payloadUserId) as [uid |] eqn:Hid; [| by left].
  unfold selectSingle.
  destruct (f_select_ok env); [| by left].
  destruct (profiles w !! uid) as [user |] eqn:Hp; [| by left].
  cbn [resp_error data].
  destruct (computeUpdates today yesterdayStr user) as [u n] eqn:Hcu.
  destruct n; [| by left].
  unfold updateSingle. rewrite Hp.
  destruct (f_update_ok env); cbn [resp_error data fst].
  - right. exists uid, user. by rewrite Hcu.
  - left. apply world_eta.
Qed.

(** X1.  [getUserData] with a missing or empty [userId] answers
    [userDataError "Missing userId"] without touching the store; with a user
    id whose row cannot be fetched (store call failed, or no such row) it
    answers [userDataError "Could not find user profile."] after the one
    read.  In both cases nothing is written and the state is unchanged. *)
Theorem getUserData_error_paths
    (today yesterdayStr : DayId) (env : FetchEnv) (w : World) :
  getUserData today yesterdayStr env None w
    = (w, [Emit (userDataError "Missing userId")])
  ∧ getUserData today yesterdayStr env (Some EmptyString) w
    = (w, [Emit (userDataError "Missing userId")])
  ∧ ∀ uid : string,
      uid ≠ EmptyString →
      f_select_ok env = false ∨ profiles w !! uid = None →
      getUserData today yesterdayStr env (Some uid) w
      = (w, [DbSelect uid;
             Emit (userDataError "Could not find user profile.")]).
Proof.
  split; [reflexivity |]. split; [reflexivity |].
  intros uid Hu Hfail. unfold getUserData.
  rewrite (truthyUserId_present _ Hu). unfold selectSingle.
  destruct (f_select_ok env); [| reflexivity].
  destruct Hfail as [? | Hnone]; [done |]. by rewrite Hnone.
Qed.

Lemma getUserData_error_paths_witness :
  let user :=
    mkProfile "u1" 2 (Some "2024-05-01") (Some "2024-05-01") 3 false in
  let w := mkWorld {[ "u1" := user ]} ∅ in
  getUserData "2024-05-02" "2024-05-01" (mkFetchEnv true true) (Some "u2") w
  = (w, [DbSelect "u2"; Emit (userDataError "Could not find user profile.")]).
Proof.
  intros user w.
  apply (getUserData_error_paths "2024-05-02" "2024-05-01"
           (mkFetchEnv true true) w); [done | by right].
Defined.

(** The row a profile becomes when the reconciliation is applied to it. *)
Lemma applyUpdates_computeUpdates (today yesterdayStr : DayId)
    (user : Profile) :
  (computeUpdates today yesterdayStr user).2 = true →
  applyUpdates (computeUpdates today yesterdayStr user).1 user
  = mkProfile (id user)
      (if bool_decide (last_login_date user = Some yesterdayStr)
       then streak user + 1
       else if bool_decide (last_login_date user = Some today)
            then streak user else 1)
      (Some today) (Some today)
      (if bool_decide (last_conversation_date user = Some today)
       then daily_conversations user else 0)
      (is_premium user).
Proof.
  unfold computeUpdates, applyUpdates.
  repeat case_bool_decide; cbn; intros Hn; try discriminate Hn;
    f_equal; congruence.
Qed.

(** A profile for which no update is computed already is the reconciled
    row. *)
Lemma computeUpdates_not_needed (today yesterdayStr : DayId)
    (user : Profile) :
  (computeUpdates today yesterdayStr user).2 = false →
  user
  = mkProfile (id user)
      (if bool_decide (last_login_date user = Some yesterdayStr)
       then streak user + 1
       else if bool_decide (last_login_date user = Some today)
            then streak user else 1)
      (Some today) (Some today)
      (if bool_decide (last_conversation_date user = Some today)
       then daily_conversations user else 0)
      (is_premium user).
Proof.
  unfold computeUpdates.
  repeat case_bool_decide; cbn; intros Hn; try discriminate Hn.
  destruct user; cbn in *. f_equal; congruence.
Qed.

(** X2.  The row [getUserData] stores and sends back when the store accepts
    its write, column by column: the streak is the old one plus 1 after a
    login yesterday, unchanged after a login today, and 1 otherwise; both
    dates are today; the daily counter is kept when it is from today and is
    0 otherwise, whichever streak case applies; [id] and [is_premium] are
    kept. *)
Theorem getUserData_reconciled_row
    (today yesterdayStr : DayId) (env : FetchEnv) (uid : string)
    (user : Profile) (w : World) :
  uid ≠ EmptyString →
  f_select_ok env = true →
  f_update_ok env = true →
  profiles w !! uid = Some user →
  let p' :=
    mkProfile (id user)
      (if bool_decide (last_login_date user = Some yesterdayStr)
       then streak user + 1
       else if bool_decide (last_login_date user = Some today)
            then streak user else 1)
      (Some today) (Some today)
      (if bool_decide (last_conversation_date user = Some today)
       then daily_conversations user else 0)
      (is_premium user) in
  emitted (getUserData today yesterdayStr env (Some uid) w).2 = [userData p']
  ∧ profiles (getUserData today yesterdayStr env (Some uid) w).1 !! uid
    = Some p'.
Proof.
  intros Hu Hs Hw Hp p'.
  destruct (computeUpdates today yesterdayStr user).2 eqn:Hn.
  - rewrite (getUserData_update_accepted today yesterdayStr env uid user w)
      by done.
    cbn [fst snd profiles]. rewrite lookup_insert_eq.
    rewrite (applyUpdates_computeUpdates today yesterdayStr user Hn).
    by split.
  - rewrite (getUserData_no_update today yesterdayStr env uid user w) by done.
    cbn [fst snd emitted omap]. rewrite Hp.
    by rewrite (computeUpdates_not_needed today yesterdayStr user Hn) at 1 2.
Qed.

Lemma getUserData_reconciled_row_witness :
  let user :=
    mkProfile "u1" 2 (Some "2024-05-02") (Some "2024-04-20") 3 false in
  let w := mkWorld {[ "u1" := user ]} ∅ in
  emitted
    (getUserData "2024-05-02" "2024-05-01" (mkFetchEnv true true)
       (Some "u1") w).2
  = [userData
       (mkProfile "u1" 2 (Some "2024-05-02") (Some "2024-05-02") 0 false)].
Proof.
  intros user w.
  apply (getUserData_reconciled_row "2024-05-02" "2024-05-01"
           (mkFetchEnv true true) "u1" user w);
    [done | reflexivity | reflexivity | reflexivity].
Defined.

(** X3.  [getUserData] never touches [chatSessions], and in [profiles] it
    can change no row but the one of the user id it was sent. *)
Theorem getUserData_frame
    (today yesterdayStr : DayId) (env : FetchEnv)
    (payloadUserId : option string) (w : World) :
  chatSessions (getUserData today yesterdayStr env payloadUserId w).1
    = chatSessions w
  ∧ ∀ other : string,
      payloadUserId ≠ Some other →
      profiles (getUserData today yesterdayStr env payloadUserId w).1 !! other
      = profiles w !! other.
Proof.
  destruct (getUserData_state today yesterdayStr env payloadUserId w)
    as [-> | (uid & user & Hid & Hp & ->)]; [done |].
  split; [done |]. intros other Hne. cbn [profiles].
  apply truthyUserId_Some in Hid as [-> _].
  apply lookup_insert_ne. congruence.
Qed.

Lemma getUserData_frame_witness :
  let u1 := mkProfile "u1" 2 (Some "2024-05-01") (Some "2024-05-01") 3 false in
  let u2 := mkProfile "u2" 7 (Some "2024-04-01") None 1 true in
  let w := mkWorld {[ "u1" := u1; "u2" := u2 ]} ∅ in
  profiles
    (getUserData "2024-05-02" "2024-05-01" (mkFetchEnv true true)
       (Some "u1") w).1 !! "u2"
  = profiles w !! "u2".
Proof.
  intros u1 u2 w.
  apply (getUserData_frame "2024-05-02" "2024-05-01" (mkFetchEnv true true)
           (Some "u1") w).
  discriminate.
Defined.

Lemma getUserData_second_fetch_same_day_witness :
  let user :=
    mkProfile "u1" 2 (Some "2024-05-01") (Some "2024-04-20") 3 false in
  let w := mkWorld {[ "u1" := user ]} ∅ in
  let env := mkFetchEnv true true in
  ∃ p',
    profiles (getUserData "2024-05-02" "2024-05-01" env (Some "u1") w).1
      !! "u1" = Some p'
    ∧ getUserData "2024-05-02" "2024-05-01" env (Some "u1")
        (getUserData "2024-05-02" "2024-05-01" env (Some "u1") w).1
      = ((getUserData "2024-05-02" "2024-05-01" env (Some "u1") w).1,
         [DbSelect "u1"; Emit (userData p')]).
Proof.
  intros user w env.
  apply (getUserData_second_fetch_same_day "2024-05-02" "2024-05-01" env env
           "u1" user w);
    [done | done | reflexivity | reflexivity | reflexivity | reflexivity].
Defined.

(** ** More on startConversation *)

(** The state [startConversation] leaves: the one it found, or the one with
    a fresh session for the socket. *)
Lemma startConversation_state (socketId : string) (env : StartEnv)
    (scenario : string) (payloadUserId : option string) (w : World) :
  (startConversation socketId env scenario payloadUserId w).1 = w
  ∨ ∃ uid user,
      truthyUserId payloadUserId = Some uid
      ∧ profiles w !! uid = Some user
      ∧ overDailyLimit (quotaColumns user) = false
      ∧ (startConversation socketId env scenario payloadUserId w).1
        = mkWorld (profiles w)
            (<[socketId := mkSession (mkChat scenario) 0 uid]>
               (chatSessions w)).
Proof.
  unfold startConversation.
  destruct (truthyUserId payloadUserId) as [uid |] eqn:Hid; [| by left].
  unfold selectSingle.
  destruct (s_select_ok env); [| by left].
  destruct (profiles w !! uid) as [user |] eqn:Hp; [| by left].
  cbn [resp_error data fmap option_fmap option_map].
  destruct (overDailyLimit (quotaColumns user)) eqn:Hq; [by left |].
  destruct (s_chat_created env); [| by left].
  right. exists uid, user. by destruct (s_opening env).
Qed.

(** X5.  [startConversation] with a missing or empty [userId] answers
    [error "Missing userId."] without touching the store; with a user id
    whose row cannot be fetched it answers [error "User not found."].  In
    both cases no session is registered and the state is unchanged. *)
Theorem startConversation_error_paths
    (socketId scenario : string) (env : StartEnv) (w : World) :
  startConversation socketId env scenario None w
    = (w, [Emit (error "Missing userId.")])
  ∧ startConversation socketId env scenario (Some EmptyString) w
    = (w, [Emit (error "Missing userId.")])
  ∧ ∀ uid : string,
      uid ≠ EmptyString →
      s_select_ok env = false ∨ profiles w !! uid = None →
      startConversation socketId env scenario (Some uid) w
      = (w, [DbSelect uid; Emit (error "User not found.")]).
Proof.
  split; [reflexivity |]. split; [reflexivity |].
  intros uid Hu Hfail. unfold startConversation.
  rewrite (truthyUserId_present _ Hu). unfold selectSingle.
  destruct (s_select_ok env); [| reflexivity].
  destruct Hfail as [? | Hnone]; [done |]. by rewrite Hnone.
Qed.

Lemma startConversation_error_paths_witness :
  let w := mkWorld ∅ ∅ in
  startConversation "sock-1" (mkStartEnv true true (Some "Hello!"))
    "At a cafe" (Some "u1") w
  = (w, [DbSelect "u1"; Emit (error "User not found.")]).
Proof.
  intros w.
  apply (startConversation_error_paths "sock-1" "At a cafe"
           (mkStartEnv true true (Some "Hello!")) w); [done | by right].
Defined.

(** X6.  [startConversation] never writes to the store: whatever it is sent
    and whatever the outside world answers, it issues no update and leaves
    [profiles] as it was; in particular starting conversations does not
    count against the daily quota. *)
Theorem startConversation_never_writes
    (socketId scenario : string) (env : StartEnv)
    (payloadUserId : option string) (w : World) :
  dbWrites (startConversation socketId env scenario payloadUserId w).2 = []
  ∧ profiles (startConversation socketId env scenario payloadUserId w).1
    = profiles w.
Proof.
  split.
  - unfold startConversation.
    repeat first [case_match | progress cbn [snd]]; reflexivity.
  - by destruct (startConversation_state socketId env scenario payloadUserId w)
      as [-> | (uid & user & _ & _ & _ & ->)].
Qed.

(** X7.  A conversation that opens: when the quota allows it and the
    provider answers the opening exchange with [text], the client gets
    exactly [aiMessage text], and the socket's session, whatever it was
    before, is a fresh one for this user and scenario with a message count
    of 0. *)
Theorem startConversation_opens
    (socketId scenario uid text : string) (env : StartEnv) (p : Profile)
    (w : World) :
  uid ≠ EmptyString →
  s_select_ok env = true →
  profiles w !! uid = Some p →
  is_premium p = true ∨ daily_conversations p < 3 →
  s_chat_created env = true →
  s_opening env = Some text →
  emitted (startConversation socketId env scenario (Some uid) w).2
    = [aiMessage text]
  ∧ chatSessions (startConversation socketId env scenario (Some uid) w).1
      !! socketId
    = Some (mkSession (mkChat scenario) 0 uid).
Proof.
  intros Hu Hs Hp Hq Hc Ho.
  assert (overDailyLimit (quotaColumns p) = false) as Hq'.
  { destruct (overDailyLimit (quotaColumns p)) eqn:E; [| done].
    apply overDailyLimit_spec in E as [Hnp Hge]. cbn in Hnp, Hge.
    destruct Hq as [Hprem | Hlt]; [congruence | lia]. }
  rewrite (startConversation_allowed socketId env scenario uid p w) by done.
  rewrite Hc, Ho. cbn [fst snd chatSessions].
  split; [reflexivity | apply lookup_insert_eq].
Qed.

Lemma startConversation_opens_witness :
  let p := mkProfile "u1" 4 (Some "2024-05-02") (Some "2024-05-02") 2 false in
  let old := mkSession (mkChat "At the airport") 3 "u1" in
  let w := mkWorld {[ "u1" := p ]} {[ "sock-1" := old ]} in
  let env := mkStartEnv true true (Some "Hello!") in
  emitted (startConversation "sock-1" env "At a cafe" (Some "u1") w).2
    = [aiMessage "Hello!"]
  ∧ chatSessions (startConversation "sock-1" env "At a cafe" (Some "u1") w).1
      !! "sock-1"
    = Some (mkSession (mkChat "At a cafe") 0 "u1").
Proof.
  intros p old w env.
  apply (startConversation_opens "sock-1" "At a cafe" "u1" "Hello!" env p w);
    [done | reflexivity | reflexivity | right; reflexivity | reflexivity
    | reflexivity].
Defined.

(** ** More on sendMessage and disconnect *)

(** What the completion check leaves in the store: nothing new, or the
    billed row overwritten by the completion update. *)
Lemma completionCheck_state (today : DayId) (env : MessageEnv) (n : Z)
    (uid : string) (db : gmap string Profile) :
  (completionCheck today env n uid db).1 = db
  ∨ ∃ p,
      db !! uid = Some p
      ∧ (completionCheck today env n uid db).1
        = <[uid := applyUpdates
                     (completionUpdate today (daily_conversations p + 1)) p]>
            db.
Proof.
  unfold completionCheck.
  case_bool_decide; [| by left].
  unfold selectSingle.
  destruct (m_select_ok env); [| by left].
  destruct (db !! uid) as [p |] eqn:Hp; [| by left].
  cbn [data fmap option_fmap option_map quotaColumns q_is_premium
       q_daily_conversations].
  destruct (is_premium p); [by left |]. cbn [negb].
  unfold updateSingle. rewrite Hp.
  destruct (m_update_ok env); [right; by exists p | by left].
Qed.

(** X8.  [sendMessage] on a socket without a session answers
    [error "Chat session not found."], calls neither the store nor the
    provider and leaves the state unchanged; this is what every message gets
    after the socket's [disconnect]. *)
Theorem sendMessage_without_session
    (socketId : string) (today : DayId) (env : MessageEnv) (message : string)
    (w : World) :
  (chatSessions w !! socketId = None →
     sendMessage socketId today env message w
     = (w, [Emit (error "Chat session not found.")]))
  ∧ sendMessage socketId today env message (disconnect socketId w).1
    = ((disconnect socketId w).1, [Emit (error "Chat session not found.")]).
Proof.
  split.
  - intros Hnone. unfold sendMessage. by rewrite Hnone.
  - unfold sendMessage, disconnect. cbn [fst chatSessions].
    by rewrite lookup_delete_eq.
Qed.

Lemma sendMessage_without_session_witness :
  let w := mkWorld ∅ ∅ in
  sendMessage "sock-1" "2024-05-02"
    (mkMessageEnv true true (Some (mkStream [Text "Nice"] false))) "Hi" w
  = (w, [Emit (error "Chat session not found.")]).
Proof.
  intros w.
  apply (proj1 (sendMessage_without_session "sock-1" "2024-05-02"
                  (mkMessageEnv true true
                     (Some (mkStream [Text "Nice"] false)))
                  "Hi" w)).
  reflexivity.
Defined.

(** X9.  Every message of a socket with a session is counted: whatever the
    store and the provider answer, failures included, the session keeps its
    chat and its user and its message count goes up by exactly 1; in
    [profiles] no row but the one the session bills against can change. *)
Theorem sendMessage_counts_every_message
    (socketId : string) (today : DayId) (env : MessageEnv) (message : string)
    (w : World) (s : Session) :
  chatSessions w !! socketId = Some s →
  chatSessions (sendMessage socketId today env message w).1 !! socketId
    = Some (mkSession (chat s) (userMessageCount s + 1) (userId s))
  ∧ ∀ other : string,
      other ≠ userId s →
      profiles (sendMessage socketId today env message w).1 !! other
      = profiles w !! other.
Proof.
  intros Hs. rewrite (sendMessage_step _ _ _ _ _ _ Hs).
  cbn [fst chatSessions profiles]. split; [apply lookup_insert_eq |].
  intros other Hne.
  destruct (completionCheck_state today env (userMessageCount s + 1)
              (userId s) (profiles w)) as [-> | (p & _ & ->)]; [done |].
  by apply lookup_insert_ne.
Qed.

Lemma sendMessage_counts_every_message_witness :
  let s := mkSession (mkChat "At a cafe") 2 "u1" in
  let w := mkWorld ∅ {[ "sock-1" := s ]} in
  let env := mkMessageEnv false false None in
  chatSessions (sendMessage "sock-1" "2024-05-02" env "Hi" w).1 !! "sock-1"
  = Some (mkSession (mkChat "At a cafe") (2 + 1) "u1").
Proof.
  intros s w env.
  apply (sendMessage_counts_every_message "sock-1" "2024-05-02" env "Hi" w s).
  reflexivity.
Defined.

(** X10.  What the fifth message of a non-premium user does to the store.
    When the write is accepted, the billed row gets [daily_conversations]
    plus 1 and [last_conversation_date] today, and keeps its other columns.
    When the write is refused the store is unchanged, yet the client is
    still sent [conversationCompleted] with the incremented count. *)
Theorem sendMessage_fifth_message_store
    (socketId : string) (today : DayId) (env : MessageEnv) (message : string)
    (w : World) (s : Session) (p : Profile) :
  chatSessions w !! socketId = Some s →
  userMessageCount s = 4 →
  m_select_ok env = true →
  profiles w !! userId s = Some p →
  is_premium p = false →
  (m_update_ok env = true →
     profiles (sendMessage socketId today env message w).1 !! userId s
     = Some (mkProfile (id p) (streak p) (last_login_date p) (Some today)
               (daily_conversations p + 1) (is_premium p)))
  ∧ (m_update_ok env = false →
     profiles (sendMessage socketId today env message w).1 = profiles w
     ∧ completionEvents (sendMessage socketId today env message w).2
       = [daily_conversations p + 1]).
Proof.
  intros Hs Hc Hsel Hp Hnp.
  rewrite (sendMessage_step _ _ _ _ _ _ Hs), Hc.
  change (4 + 1) with 5.
  rewrite (completionCheck_recorded today env (userId s) (profiles w) p)
    by done.
  cbn [fst snd profiles]. split.
  - intros ->. by rewrite lookup_insert_eq.
  - intros ->. split; [done |].
    rewrite completionEvents_app.
    change (completionEvents
              (SendStream message :: (Emit <$> streamReply (m_stream env))))
      with (completionEvents (Emit <$> streamReply (m_stream env))).
    by rewrite completionEvents_streamReply.
Qed.

Lemma sendMessage_fifth_message_store_witness :
  let p := mkProfile "u1" 4 (Some "2024-05-02") (Some "2024-05-02") 1 false in
  let s := mkSession (mkChat "At a cafe") 4 "u1" in
  let w := mkWorld {[ "u1" := p ]} {[ "sock-1" := s ]} in
  let env := mkMessageEnv true false (Some (mkStream [Text "Nice"] false)) in
  profiles (sendMessage "sock-1" "2024-05-02" env "Hi" w).1 = profiles w
  ∧ completionEvents (sendMessage "sock-1" "2024-05-02" env "Hi" w).2 = [2].
Proof.
  intros p s w env.
  apply (sendMessage_fifth_message_store "sock-1" "2024-05-02" env "Hi" w s p);
    reflexivity.
Defined.

(** X11.  A counter from an earlier day is carried into today by a
    completion.  When the fifth message of a non-premium user is recorded,
    the stored counter becomes the old one plus 1 even if
    [last_conversation_date] was an earlier day, and since the row is now
    dated today, a following [getUserData] of the same day does not reset
    it. *)
Theorem completion_carries_stale_counter
    (socketId : string) (today yesterdayStr : DayId) (env : MessageEnv)
    (fenv : FetchEnv) (message : string) (w : World) (s : Session)
    (p : Profile) :
  chatSessions w !! socketId = Some s →
  userMessageCount s = 4 →
  userId s ≠ EmptyString →
  m_select_ok env = true →
  m_update_ok env = true →
  profiles w !! userId s = Some p →
  is_premium p = false →
  ∃ p',
    profiles
      (getUserData today yesterdayStr fenv (Some (userId s))
         (sendMessage socketId today env message w).1).1 !! userId s
    = Some p'
    ∧ daily_conversations p' = daily_conversations p + 1
    ∧ last_conversation_date p' = Some today.
Proof.
  intros Hs Hc Hu Hsel Hupd Hp Hnp.
  rewrite (sendMessage_step _ _ _ _ _ _ Hs), Hc.
  change (4 + 1) with 5.
  rewrite (completionCheck_recorded today env (userId s) (profiles w) p)
    by done.
  rewrite Hupd. cbn [fst].
  set (p1 := applyUpdates _ p).
  set (w1 := mkWorld _ _).
  assert (profiles w1 !! userId s = Some p1) as Hp1
    by apply lookup_insert_eq.
  destruct (getUserData_state today yesterdayStr fenv (Some (userId s)) w1)
    as [-> | (uid & user & Hid & Huser & ->)].
  - exists p1. by rewrite Hp1.
  - apply truthyUserId_Some in Hid as [[= <-] _].
    rewrite Hp1 in Huser. injection Huser as <-.
    cbn [profiles]. rewrite lookup_insert_eq. eexists. split; [reflexivity |].
    unfold computeUpdates, applyUpdates, p1.
    cbn [last_conversation_date last_login_date daily_conversations
         completionUpdate applyUpdates set_last_conversation_date
         set_daily_conversations noUpdates u_last_conversation_date
         u_daily_conversations u_streak u_last_login_date default].
    rewrite (bool_decide_eq_true_2 (Some today = Some today)) by done.
    by repeat case_bool_decide.
Qed.

Lemma completion_carries_stale_counter_witness :
  let p := mkProfile "u1" 4 (Some "2024-05-02") (Some "2024-04-20") 2 false in
  let s := mkSession (mkChat "At a cafe") 4 "u1" in
  let w := mkWorld {[ "u1" := p ]} {[ "sock-1" := s ]} in
  let env := mkMessageEnv true true (Some (mkStream [Text "Nice"] false)) in
  ∃ p',
    profiles
      (getUserData "2024-05-02" "2024-05-01" (mkFetchEnv true true)
         (Some "u1") (sendMessage "sock-1" "2024-05-02" env "Hi" w).1).1
      !! "u1"
    = Some p'
    ∧ daily_conversations p' = 2 + 1
    ∧ last_conversation_date p' = Some "2024-05-02".
Proof.
  intros p s w env.
  apply (completion_carries_stale_counter "sock-1" "2024-05-02" "2024-05-01"
           env (mkFetchEnv true true) "Hi" w s p);
    [reflexivity | reflexivity | done | reflexivity | reflexivity
    | reflexivity | reflexivity].
Defined.

(** X12.  [disconnect] removes the socket's session and nothing else: the
    other sockets' sessions and the profiles stay, nothing is emitted, and a
    second [disconnect] changes nothing more. *)
Theorem disconnect_removes_only_own_session (socketId : string) (w : World) :
  chatSessions (disconnect socketId w).1 !! socketId = None
  ∧ (∀ other : string,
       other ≠ socketId →
       chatSessions (disconnect socketId w).1 !! other
       = chatSessions w !! other)
  ∧ profiles (disconnect socketId w).1 = profiles w
  ∧ (disconnect socketId w).2 = []
  ∧ disconnect socketId (disconnect socketId w).1 = disconnect socketId w.
Proof.
  unfold disconnect. cbn [fst snd chatSessions profiles].
  split; [apply lookup_delete_eq |].
  split; [intros other Hne; by apply lookup_delete_ne |].
  split; [done |]. split; [done |].
  by rewrite delete_delete_eq.
Qed.

(** ** More on consecutive messages *)

Lemma sendMessages_cons_state (socketId : string) (today : DayId)
    (env : MessageEnv) (message : string) (rest : list (MessageEnv * string))
    (w : World) :
  (sendMessages socketId today ((env, message) :: rest) w).1
  = (sendMessages socketId today rest
       (sendMessage socketId today env message w).1).1.
Proof.
  cbn [sendMessages].
  destruct (sendMessage socketId today env message w) as [w1 tr].
  cbn [fst snd]. by destruct (sendMessages socketId today rest w1).
Qed.

Section RunFacts.
Variables (socketId : string) (today : DayId).

(** After a run the session has counted every message of it. *)
Lemma sendMessages_session (turns : list (MessageEnv * string)) :
  ∀ (w : World) (s : Session),
    chatSessions w !! socketId = Some s →
    chatSessions (sendMessages socketId today turns w).1 !! socketId
    = Some (mkSession (chat s)
              (userMessageCount s + Z.of_nat (length turns)) (userId s)).
Proof.
  induction turns as [| [env message] rest IH]; intros w s Hs.
  - cbn. rewrite Z.add_0_r. by destruct s.
  - rewrite sendMessages_cons_state, (sendMessage_step _ _ _ _ _ _ Hs).
    cbn [fst]. rewrite (IH _ (bump s)) by apply lookup_insert_eq.
    cbn [bump chat userMessageCount userId length]. do 2 f_equal. lia.
Qed.

(** As long as the message count stays below 5 the store is not written. *)
Lemma sendMessages_below_five (turns : list (MessageEnv * string)) :
  ∀ (w : World) (s : Session),
    chatSessions w !! socketId = Some s →
    userMessageCount s + Z.of_nat (length turns) < 5 →
    profiles (sendMessages socketId today turns w).1 = profiles w.
Proof.
  induction turns as [| [env message] rest IH]; intros w s Hs Hlt; [done |].
  rewrite sendMessages_cons_state, (sendMessage_step _ _ _ _ _ _ Hs).
  cbn [length] in Hlt.
  rewrite completionCheck_other by lia. cbn [fst].
  rewrite (IH _ (bump s)); [done | apply lookup_insert_eq |].
  cbn [bump userMessageCount]. lia.
Qed.

End RunFacts.

(** X13.  A conversation of fewer than five messages is never counted.
    After a [startConversation] that registers a session, on a socket with
    or without an earlier session, up to four messages leave [profiles]
    exactly as it was, whatever the store and the provider answer; the
    session then holds the number of messages sent. *)
Theorem short_conversation_is_not_counted
    (socketId scenario uid : string) (today : DayId) (env : StartEnv)
    (p : Profile) (turns : list (MessageEnv * string)) (w : World) :
  uid ≠ EmptyString →
  s_select_ok env = true →
  profiles w !! uid = Some p →
  is_premium p = true ∨ daily_conversations p < 3 →
  s_chat_created env = true →
  (length turns ≤ 4)%nat →
  let w1 := (startConversation socketId env scenario (Some uid) w).1 in
  profiles (sendMessages socketId today turns w1).1 = profiles w
  ∧ chatSessions (sendMessages socketId today turns w1).1 !! socketId
    = Some (mkSession (mkChat scenario) (Z.of_nat (length turns)) uid).
Proof.
  intros Hu Hs Hp Hq Hc Hlen w1.
  assert (overDailyLimit (quotaColumns p) = false) as Hq'.
  { destruct (overDailyLimit (quotaColumns p)) eqn:E; [| done].
    apply overDailyLimit_spec in E as [Hnp Hge]. cbn in Hnp, Hge.
    destruct Hq as [Hprem | Hlt]; [congruence | lia]. }
  assert (w1 = mkWorld (profiles w)
                 (<[socketId := mkSession (mkChat scenario) 0 uid]>
                    (chatSessions w))) as ->.
  { subst w1.
    rewrite (startConversation_allowed socketId env scenario uid p w) by done.
    by rewrite Hc. }
  split.
  - rewrite (sendMessages_below_five socketId today turns _
               (mkSession (mkChat scenario) 0 uid)); [done | |].
    + apply lookup_insert_eq.
    + cbn [userMessageCount]. lia.
  - rewrite (sendMessages_session socketId today turns _
               (mkSession (mkChat scenario) 0 uid))
      by apply lookup_insert_eq.
    done.
Qed.

Lemma short_conversation_is_not_counted_witness :
  let p := mkProfile "u1" 4 (Some "2024-05-02") (Some "2024-05-02") 2 false in
  let old := mkSession (mkChat "At the airport") 4 "u1" in
  let w := mkWorld {[ "u1" := p ]} {[ "sock-1" := old ]} in
  let env := mkStartEnv true true (Some "Hello!") in
  let menv := mkMessageEnv true true (Some (mkStream [Text "Nice"] false)) in
  let turns := replicate 4 (menv, "Hi") in
  let w1 := (startConversation "sock-1" env "At a cafe" (Some "u1") w).1 in
  profiles (sendMessages "sock-1" "2024-05-02" turns w1).1 = profiles w
  ∧ chatSessions (sendMessages "sock-1" "2024-05-02" turns w1).1 !! "sock-1"
    = Some (mkSession (mkChat "At a cafe") (Z.of_nat (length turns)) "u1").
Proof.
  intros p old w env menv turns w1.
  apply (short_conversation_is_not_counted "sock-1" "At a cafe" "u1"
           "2024-05-02" env p turns w);
    [done | reflexivity | reflexivity | right; reflexivity | reflexivity
    | cbn; lia].
Defined.

(** X14.  Messages of a premium user never write to the store: over any
    number of messages of a session that bills a premium profile, no turn
    issues an update or emits [conversationCompleted], and [profiles] ends
    as it began. *)
Theorem premium_messages_never_write
    (socketId : string) (today : DayId) (turns : list (MessageEnv * string))
    (w : World) (s : Session) (p : Profile) :
  chatSessions w !! socketId = Some s →
  profiles w !! userId s = Some p →
  is_premium p = true →
  profiles (sendMessages socketId today turns w).1 = profiles w
  ∧ ∀ (k : nat) (tr : Trace),
      (sendMessages socketId today turns w).2 !! k = Some tr →
      dbWrites tr = [] ∧ completionEvents tr = [].
Proof.
  revert w s. induction turns as [| [env message] rest IH];
    intros w s Hs Hp Hprem; [done |].
  rewrite sendMessages_cons, sendMessages_cons_state.
  rewrite (sendMessage_step _ _ _ _ _ _ Hs).
  assert ((completionCheck today env (userMessageCount s + 1) (userId s)
             (profiles w)).1 = profiles w
          ∧ dbWrites (completionCheck today env (userMessageCount s + 1)
                        (userId s) (profiles w)).2 = []
          ∧ completionEvents
              (completionCheck today env (userMessageCount s + 1)
                 (userId s) (profiles w)).2 = []) as (Hdb & Hwr & Hev).
  { destruct (decide (userMessageCount s + 1 = 5)) as [-> | Hne].
    - by rewrite completionCheck_skipped by eauto.
    - by rewrite completionCheck_other. }
  cbn [fst snd]. rewrite Hdb.
  destruct (IH (mkWorld (profiles w)
                  (<[socketId := bump s]> (chatSessions w))) (bump s))
    as [IH1 IH2]; [apply lookup_insert_eq | done | done |].
  split; [done |]. intros [| k'] tr Hk.
  - injection Hk as <-.
    rewrite dbWrites_app, completionEvents_app, Hwr, Hev.
    split; [apply dbWrites_Emit | apply completionEvents_streamReply].
  - by apply (IH2 k').
Qed.

Lemma premium_messages_never_write_witness :
  let p := mkProfile "u1" 4 (Some "2024-05-02") (Some "2024-05-02") 9 true in
  let s := mkSession (mkChat "At a cafe") 0 "u1" in
  let w := mkWorld {[ "u1" := p ]} {[ "sock-1" := s ]} in
  let menv := mkMessageEnv true true (Some (mkStream [Text "Nice"] false)) in
  let turns := replicate 6 (menv, "Hi") in
  profiles (sendMessages "sock-1" "2024-05-02" turns w).1 = profiles w.
Proof.
  intros p s w menv turns.
  apply (premium_messages_never_write "sock-1" "2024-05-02" turns w s p);
    reflexivity.
Defined.

(** X15.  The quota closes after the third recorded conversation.  Once the
    fifth message of a non-premium user has been recorded in the store, a
    [startConversation] of that user, on any socket, is answered with
    [limitReached] exactly when the counter read at the completion was 2 or
    more. *)
Theorem quota_closes_after_completion
    (socketId socketId2 scenario : string) (today : DayId)
    (env : MessageEnv) (senv : StartEnv) (message : string) (w : World)
    (s : Session) (p : Profile) :
  chatSessions w !! socketId = Some s →
  userMessageCount s = 4 →
  userId s ≠ EmptyString →
  m_select_ok env = true →
  m_update_ok env = true →
  s_select_ok senv = true →
  profiles w !! userId s = Some p →
  is_premium p = false →
  Emit limitReached
    ∈ (startConversation socketId2 senv scenario (Some (userId s))
         (sendMessage socketId today env message w).1).2
  ↔ 2 ≤ daily_conversations p.
Proof.
  intros Hs Hc Hu Hsel Hupd Hssel Hp Hnp.
  rewrite (sendMessage_step _ _ _ _ _ _ Hs), Hc.
  change (4 + 1) with 5.
  rewrite (completionCheck_recorded today env (userId s) (profiles w) p)
    by done.
  rewrite Hupd. cbn [fst].
  set (p1 := applyUpdates _ p).
  set (w1 := mkWorld _ _).
  assert (profiles w1 !! userId s = Some p1) as Hp1
    by apply lookup_insert_eq.
  destruct (overDailyLimit (quotaColumns p1)) eqn:Hq.
  - rewrite (startConversation_denied socketId2 senv scenario (userId s)
               p1 w1) by done.
    apply overDailyLimit_spec in Hq as [_ Hge]. cbn in Hge.
    split; [intros _; lia |]. intros _. cbn [snd]. set_solver.
  - split.
    + intros Hin.
      by apply (startConversation_allowed_no_limitReached socketId2 senv
                  scenario (userId s) p1 w1) in Hin.
    + intros Hge.
      assert (overDailyLimit (quotaColumns p1) = true) as Hq'.
      { apply overDailyLimit_spec. cbn. split; [done | lia]. }
      congruence.
Qed.

Lemma quota_closes_after_completion_witness :
  let p := mkProfile "u1" 4 (Some "2024-05-02") (Some "2024-05-02") 2 false in
  let s := mkSession (mkChat "At a cafe") 4 "u1" in
  let w := mkWorld {[ "u1" := p ]} {[ "sock-1" := s ]} in
  let env := mkMessageEnv true true (Some (mkStream [Text "Nice"] false)) in
  let senv := mkStartEnv true true (Some "Hello!") in
  Emit limitReached
    ∈ (startConversation "sock-2" senv "At the airport" (Some (userId s))
         (sendMessage "sock-1" "2024-05-02" env "Hi" w).1).2
  ↔ 2 ≤ daily_conversations p.
Proof.
  intros p s w env senv.
  apply (quota_closes_after_completion "sock-1" "sock-2" "At the airport"
           "2024-05-02" env senv "Hi" w s p);
    [reflexivity | reflexivity | done | reflexivity | reflexivity
    | reflexivity | reflexivity | reflexivity].
Defined.

(** ** Any sequence of events *)

Lemma handleAll_cons (a : Arrival) (rest : list Arrival) (w : World) :
  (handleAll (a :: rest) w).1 = (handleAll rest (handle a w).1).1
  ∧ (handleAll (a :: rest) w).2
    = (handle a w).2 :: (handleAll rest (handle a w).1).2.
Proof.
  cbn [handleAll]. destruct (handle a w) as [w1 tr]. cbn [fst snd].
  by destruct (handleAll rest w1).
Qed.

(** The state [sendMessage] leaves. *)
Lemma sendMessage_state (socketId : string) (today : DayId)
    (env : MessageEnv) (message : string) (w : World) :
  (sendMessage socketId today env message w).1 = w
  ∨ ∃ s,
      chatSessions w !! socketId = Some s
      ∧ (sendMessage socketId today env message w).1
        = mkWorld
            (completionCheck today env (userMessageCount s + 1) (userId s)
               (profiles w)).1
            (<[socketId := bump s]> (chatSessions w)).
Proof.
  destruct (chatSessions w !! socketId) as [s |] eqn:Hs.
  - right. exists s. by rewrite (sendMessage_step _ _ _ _ _ _ Hs).
  - left. unfold sendMessage. by rewrite Hs.
Qed.

Lemma insert_applyUpdates_identity (db : gmap string Profile)
    (uid : string) (u : Updates) (p : Profile) (k : string) :
  db !! uid = Some p →
  identityColumns <$> (<[uid := applyUpdates u p]> db) !! k
  = identityColumns <$> db !! k.
Proof.
  intros Hp. destruct (decide (uid = k)) as [<- | Hne].
  - by rewrite lookup_insert_eq, Hp.
  - by rewrite lookup_insert_ne.
Qed.

Lemma completionCheck_identity (today : DayId) (env : MessageEnv) (n : Z)
    (uid : string) (db : gmap string Profile) (k : string) :
  identityColumns <$> (completionCheck today env n uid db).1 !! k
  = identityColumns <$> db !! k.
Proof.
  destruct (completionCheck_state today env n uid db)
    as [-> | (p & Hp & ->)]; [done |].
  by apply insert_applyUpdates_identity.
Qed.

Lemma handle_identity (a : Arrival) (w : World) (k : string) :
  identityColumns <$> profiles (handle a w).1 !! k
  = identityColumns <$> profiles w !! k.
Proof.
  unfold handle. destruct (a_request a) as [env u | env sc u | env m |].
  - destruct (getUserData_state (a_today a) (a_yesterday a) env u w)
      as [-> | (uid & user & _ & Hp & ->)]; [done |].
    by apply insert_applyUpdates_identity.
  - by destruct (startConversation_state (a_socket a) env sc u w)
      as [-> | (uid & user & _ & _ & _ & ->)].
  - destruct (sendMessage_state (a_socket a) (a_today a) env m w)
      as [-> | (s & _ & ->)]; [done |].
    apply completionCheck_identity.
  - reflexivity.
Qed.

(** X16.  No sequence of socket events creates or deletes a profile or
    changes a profile's [id] or [is_premium]: for every user id, the row is
    present after the events exactly when it was before, with the same two
    columns. *)
Theorem events_keep_profile_identity
    (arrivals : list Arrival) (w : World) (k : string) :
  identityColumns <$> profiles (handleAll arrivals w).1 !! k
  = identityColumns <$> profiles w !! k.
Proof.
  revert w. induction arrivals as [| a rest IH]; intros w; [done |].
  destruct (handleAll_cons a rest w) as [-> _].
  by rewrite IH, handle_identity.
Qed.




Lemma handle_sessionsBillProfiles (a : Arrival) (w : World) :
  sessionsBillProfiles w → sessionsBillProfiles (handle a w).1.
Proof.
  intros Hw sid s Hs.
  assert (∀ k, is_Some (profiles w !! k) →
               is_Some (profiles (handle a w).1 !! k)) as Hkeep.
  { intros k Hk. apply fmap_is_Some with (f := identityColumns).
    rewrite handle_identity. by apply fmap_is_Some. }
  assert (chatSessions w !! sid = Some s
          ∨ (userMessageCount s = 0 ∧ userId s ≠ EmptyString
             ∧ is_Some (profiles w !! userId s))
          ∨ ∃ s0, chatSessions w !! sid = Some s0 ∧ s = bump s0) as Hcase.
  { revert Hs. unfold handle.
    destruct (a_request a) as [env u | env sc u | env m |].
    - destruct (getUserData_state (a_today a) (a_yesterday a) env u w)
        as [-> | (uid & user & _ & _ & ->)]; by left.
    - destruct (startConversation_state (a_socket a) env sc u w)
        as [-> | (uid & user & Hid & Hp & _ & ->)]; [by left |].
      cbn [chatSessions]. apply truthyUserId_Some in Hid as [_ Hne].
      destruct (decide (a_socket a = sid)) as [<- | Hsid].
      + rewrite lookup_insert_eq. intros [= <-]. right. left.
        cbn. by rewrite Hp.
      + rewrite lookup_insert_ne by done. by left.
    - destruct (sendMessage_state (a_socket a) (a_today a) env m w)
        as [-> | (s0 & Hs0 & ->)]; [by left |].
      cbn [chatSessions].
      destruct (decide (a_socket a = sid)) as [<- | Hsid].
      + rewrite lookup_insert_eq. intros [= <-]. right. right. by exists s0.
      + rewrite lookup_insert_ne by done. by left.
    - cbn [disconnect fst chatSessions]. intros Hs.
      apply lookup_delete_Some in Hs as [_ Hs]. by left. }
  destruct Hcase as [Hold | [(Hc & Hu & Hp) | (s0 & Hs0 & ->)]].
  - destruct (Hw sid s Hold) as (Hc & Hu & Hp).
    split; [done |]. split; [done | by apply Hkeep].
  - rewrite Hc. split; [done |]. split; [done | by apply Hkeep].
  - destruct (Hw sid s0 Hs0) as (Hc & Hu & Hp).
    cbn [bump userMessageCount userId].
    split; [lia |]. split; [done | by apply Hkeep].
Qed.

(** X18.  Every session bills an existing profile.  Starting from a server
    with no session, after any sequence of socket events every registered
    session has a message count of 0 or more and a non-empty user id whose
    row is in [profiles]; so the profile read of a completion check can fail
    only when the store call itself fails. *)
Theorem sessions_always_bill_a_profile (arrivals : list Arrival) (w : World) :
  chatSessions w = ∅ →
  sessionsBillProfiles (handleAll arrivals w).1.
Proof.
  intros Hempty.
  assert (sessionsBillProfiles w) as Hw.
  { intros sid s Hs. rewrite Hempty in Hs. by rewrite lookup_empty in Hs. }
  clear Hempty. revert w Hw.
  induction arrivals as [| a rest IH]; intros w Hw; [done |].
  destruct (handleAll_cons a rest w) as [-> _].
  by apply IH, handle_sessionsBillProfiles.
Qed.

Lemma sessions_always_bill_a_profile_witness :
  let p := mkProfile "u1" 4 (Some "2024-05-02") (Some "2024-05-02") 1 false in
  let w := mkWorld {[ "u1" := p ]} ∅ in
  let arrivals :=
    [mkArrival "sock-1" "2024-05-02" "2024-05-01"
       (OnStartConversation (mkStartEnv true true (Some "Hello!"))
          "At a cafe" (Some "u1"));
     mkArrival "sock-1" "2024-05-02" "2024-05-01"
       (OnSendMessage (mkMessageEnv true true None) "Hi")] in
  sessionsBillProfiles (handleAll arrivals w).1.
Proof.
  intros p w arrivals.
  apply (sessions_always_bill_a_profile arrivals w). reflexivity.
Defined.

Lemma elem_of_emitted (tr : Trace) (e : Event) :
  e ∈ emitted tr → Emit e ∈ tr.
Proof.
  unfold emitted. rewrite list_elem_of_omap.
  intros (a & Ha & Hsome). destruct a; try discriminate Hsome.
  by injection Hsome as ->.
Qed.

(** X19.  Requests that carry their payload are answered.  A [getUserData]
    or [startConversation] event sent without a payload object makes the
    handler throw while it destructures its parameter, before anything is
    emitted.  With a payload object, whatever its fields and whatever the
    store and the provider do, [getUserData] emits exactly one event,
    [userData] or [userDataError], and [startConversation] emits exactly one
    event, [aiMessage], [limitReached] or [error].  [sendMessage] with a
    string message ends with exactly one closing event, [aiMessageEnd] or
    [error], preceded only by [aiMessageChunk] and [conversationCompleted]
    events; [disconnect] emits nothing. *)
Theorem requests_with_payload_are_answered
    (socketId : string) (today yesterdayStr : DayId) (fenv : FetchEnv)
    (senv : StartEnv) (menv : MessageEnv) (message : string) (w : World) :
  (∀ payload : option (option string),
     match onGetUserData today yesterdayStr fenv payload w with
     | None => payload = None
     | Some res =>
         payload ≠ None
         ∧ ∃ e, emitted res.2 = [e]
                ∧ ((∃ p, e = userData p) ∨ ∃ m, e = userDataError m)
     end)
  ∧ (∀ payload : option (string * option string),
       match onStartConversation socketId senv payload w with
       | None => payload = None
       | Some res =>
           payload ≠ None
           ∧ ∃ e, emitted res.2 = [e]
                  ∧ ((∃ t, e = aiMessage t) ∨ e = limitReached
                     ∨ ∃ m, e = error m)
       end)
  ∧ (∃ evs e,
       emitted (sendMessage socketId today menv message w).2 = evs ++ [e]
       ∧ (e = aiMessageEnd ∨ ∃ m, e = error m)
       ∧ ∀ e', e' ∈ evs →
               (∃ t, e' = aiMessageChunk t)
               ∨ ∃ n, e' = conversationCompleted n)
  ∧ emitted (disconnect socketId w).2 = [].
Proof.
  split; [| split; [| split]].
  - intros [payloadUserId |]; [| reflexivity]. cbn [onGetUserData].
    split; [done |]. unfold getUserData.
    repeat first [case_match | progress cbn [snd emitted omap]];
      eexists; (split; [reflexivity |]); eauto.
  - intros [[scenario payloadUserId] |]; [| reflexivity].
    cbn [onStartConversation]. split; [done |]. unfold startConversation.
    repeat first [case_match | progress cbn [snd emitted omap]];
      eexists; (split; [reflexivity |]); eauto.
  - destruct (chatSessions w !! socketId) as [s |] eqn:Hs.
    + rewrite (sendMessage_step _ _ _ _ _ _ Hs). cbn [snd].
      rewrite emitted_app, emitted_cons_call, emitted_Emit by done.
      rewrite streamReply_spec, app_assoc.
      eexists _, _. split; [reflexivity |]. split.
      * destruct (streamCompletes (m_stream menv)); eauto.
      * intros e' Hin. apply elem_of_app in Hin as [Hin | Hin].
        -- right. apply elem_of_emitted in Hin.
           by apply completionCheck_events in Hin.
        -- left. apply list_elem_of_fmap in Hin as (t & -> & _). eauto.
    + unfold sendMessage. rewrite Hs. cbn [snd emitted omap].
      exists [], (error "Chat session not found.").
      split; [reflexivity |]. split; [eauto |].
      intros e' Hin. by apply elem_of_nil in Hin.
  - reflexivity.
Qed.

(** ** getToday *)

Lemma beforeFirstT_no_T (s : string) : hasT s = false → beforeFirstT s = s.
Proof.
  induction s as [| c rest IH]; [done |]. cbn [beforeFirstT hasT].
  destruct (Ascii.eqb c "T"); [done |].
  cbn [orb]. intros Hrest. by rewrite IH.
Qed.

(** X20.  [getToday] keeps the date part of an ISO timestamp: for a string
    made of a part without ['T'], a ['T'] and anything after, it returns the
    first part; a string without ['T'] is returned whole; and the result
    never contains a ['T']. *)
Theorem getToday_takes_date_part (iso : string) :
  (∀ date time : string,
     hasT date = false →
     getToday (String.append date (String "T" time)) = date)
  ∧ (hasT iso = false → getToday iso = iso)
  ∧ hasT (getToday iso) = false.
Proof.
  unfold getToday. split; [| split].
  - intros date time. induction date as [| c rest IH].
    + intros _. reflexivity.
    + simpl. destruct (Ascii.eqb c "T"); [done |].
      simpl. intros Hrest. by rewrite IH.
  - apply beforeFirstT_no_T.
  - induction iso as [| c rest IH]; [done |]. cbn [beforeFirstT].
    destruct (Ascii.eqb c "T") eqn:E; [done |].
    cbn [hasT]. by rewrite E.
Qed.

Lemma getToday_takes_date_part_witness :
  getToday "2024-05-02T10:15:30.000Z" = "2024-05-02".
Proof.
  apply (proj1 (getToday_takes_date_part EmptyString)
           "2024-05-02" "10:15:30.000Z").
  reflexivity.
Defined.
